(** * rail-score-js: the request / error-classification pipeline

    A shallow embedding of [src/client.ts] (the [RailScore] constructor,
    [request], [handleError]), of the error classes of [src/errors.ts] and of
    [Generation.generate] from [src/generation.ts], with the properties the
    specification states about them.

    Modelling conventions.
    - A JavaScript value is a [value]: what [JSON.parse] can return, plus
      [Undefined] for the result of reading a property that is not there.
      Numbers are the integer-valued ones ([Z]); the numeric options of
      [generate], which are fractional in practice, are rationals ([Q]).
      The IEEE specials (NaN, the infinities) are not modelled.  Conversion
      to a string can throw, as it does in the engine ([ToString]).
    - A string is a sequence of code units; Rocq's [string] gives the code
      units 0..255.
    - A promise is its settlement, [Fulfilled] or [Rejected], together with
      the list of [fetch] calls made on the way; [fetch] itself, which is
      [node-fetch] and not part of the repository, is a parameter. *)

From Stdlib Require Import String Ascii ZArith QArith List Bool Lia DecimalString.
Import ListNotations.

#[local] Open Scope string_scope.
#[local] Open Scope Z_scope.

(** ** JavaScript values *)

#[local] Set Warnings "-register-all".

Inductive value : Type :=
| Undefined
| Null
| Boolean (b : bool)
| Num (z : Z)
| Str (s : string)
| Arr (items : list value)
| Obj (props : list (string * value)).

(** [typeof v] *)
Definition typeof (v : value) : string :=
  match v with
  | Undefined => "undefined"
  | Null | Arr _ | Obj _ => "object"
  | Boolean _ => "boolean"
  | Num _ => "number"
  | Str _ => "string"
  end.

(** ToBoolean: [undefined], [null], [false], [0] and [''] are falsy, every
    object (arrays included) is truthy. *)
Definition truthy (v : value) : bool :=
  match v with
  | Undefined | Null => false
  | Boolean b => b
  | Num z => negb (z =? 0)
  | Str s => negb (s =? "")%string
  | Arr _ | Obj _ => true
  end.

(** [a || b] *)
Definition or_else (a b : value) : value := if truthy a then a else b.

Fixpoint lookup (k : string) (props : list (string * value)) : value :=
  match props with
  | [] => Undefined
  | (k', v) :: rest => if (k' =? k)%string then v else lookup k rest
  end.

(** [v.k] for a property name [k] that no prototype defines ([message],
    [error], [field], [balance], [required], [retry_after]): the own property
    of an object, [undefined] on an array and on a boxed primitive.  (On
    [null] and [undefined] JavaScript raises; [handleError] never reads a
    property of those.) *)
Definition get (v : value) (k : string) : value :=
  match v with
  | Obj props => lookup k props
  | _ => Undefined
  end.

Definition has_key (k : string) (props : list (string * value)) : bool :=
  existsb (fun kv => (fst kv =? k)%string) props.

(** Decimal rendering of an integer: what [toString] and a template
    literal give for a safe integer.  (Beyond [MAX_SAFE_INTEGER] not every
    integer is a number, and those that are print the shortest digits that
    read back, with an exponent from 1e21 on: a theorem that states the
    text of a number bounds the number.) *)
Definition decimal (z : Z) : string := NilZero.string_of_int (Z.to_int z).

Definition MAX_SAFE_INTEGER : Z := 2 ^ 53 - 1.

(** ** Errors ([src/errors.ts]) *)

(** An error that is not an instance of [RailScoreError]: what [fetch] and
    [response.json()] reject with, and the TypeError of the engine. *)
Record JsError : Type := mkJsError { name : string; message : string }.

(** The instances of [RailScoreError] and of its subclasses, each with the
    message stored by [Error] and the fields its class adds.  ([BaseError]
    is an instance of the base class itself; [ContentTooLongError], which
    nothing in the client raises, is left out.) *)
Inductive RailScoreError : Type :=
| BaseError (msg : string)
| AuthenticationError (msg : string)
| InsufficientCreditsError (msg : string) (balance required : value)
| ValidationError (msg : string) (field : value)
| RateLimitError (msg : string) (retryAfter : value)
| TimeoutError (msg : string)
| NetworkError (msg : string) (originalError : JsError)
| ServerError (msg : string) (statusCode : Z).

(** The discriminant: one kind per class. *)
Inductive ErrorKind : Type :=
| Generic | Authentication | InsufficientCredits | Validation | RateLimit
| Timeout | Network | Server.

Definition kind (e : RailScoreError) : ErrorKind :=
  match e with
  | BaseError _ => Generic
  | AuthenticationError _ => Authentication
  | InsufficientCreditsError _ _ _ => InsufficientCredits
  | ValidationError _ _ => Validation
  | RateLimitError _ _ => RateLimit
  | TimeoutError _ => Timeout
  | NetworkError _ _ => Network
  | ServerError _ _ => Server
  end.

(** [this.name], set by each constructor. *)
Definition error_name (e : RailScoreError) : string :=
  match e with
  | BaseError _ => "RailScoreError"
  | AuthenticationError _ => "AuthenticationError"
  | InsufficientCreditsError _ _ _ => "InsufficientCreditsError"
  | ValidationError _ _ => "ValidationError"
  | RateLimitError _ _ => "RateLimitError"
  | TimeoutError _ => "TimeoutError"
  | NetworkError _ _ => "NetworkError"
  | ServerError _ _ => "ServerError"
  end.

Definition error_message (e : RailScoreError) : string :=
  match e with
  | BaseError m | AuthenticationError m | InsufficientCreditsError m _ _
  | ValidationError m _ | RateLimitError m _ | TimeoutError m
  | NetworkError m _ | ServerError m _ => m
  end.

(** What a [throw] can carry to a [catch]. *)
Inductive Thrown : Type :=
| ThrowRail (e : RailScoreError)   (* instanceof RailScoreError *)
| ThrowOther (e : JsError).

(** A synchronous call either returns or throws. *)
Inductive Outcome (A : Type) : Type :=
| Returns (a : A)
| Throws (t : Thrown).
Arguments Returns {A} a.
Arguments Throws {A} t.

(** [o], then [k] on what it returned *)
Definition and_then {A B} (o : Outcome A) (k : A -> Outcome B) : Outcome B :=
  match o with
  | Returns a => k a
  | Throws t => Throws t
  end.

(** The TypeError of the engine when an object has no usable [toString]
    and [valueOf]. *)
Definition cannot_convert : JsError :=
  mkJsError "TypeError" "Cannot convert object to primitive value".

(** ToString, as applied by [Error(message)] and by template literals.  An
    array is joined with commas, [null] and [undefined] elements printing as
    nothing.  An object parsed from JSON prints through the inherited
    [Object.prototype.toString], unless it has a member of its own named
    [toString]: that member is not a function, the inherited [valueOf]
    gives the object back, and the conversion throws a TypeError. *)
Fixpoint ToString (v : value) : Outcome string :=
  match v with
  | Undefined => Returns "undefined"
  | Null => Returns "null"
  | Boolean true => Returns "true"
  | Boolean false => Returns "false"
  | Num z => Returns (decimal z)
  | Str s => Returns s
  | Arr items =>
      (fix join (l : list value) : Outcome string :=
         match l with
         | [] => Returns ""
         | x :: rest =>
             match match x with
                   | Undefined | Null => Returns ""
                   | _ => ToString x
                   end
             with
             | Throws t => Throws t
             | Returns sx =>
                 match rest with
                 | [] => Returns sx
                 | _ :: _ =>
                     match join rest with
                     | Throws t => Throws t
                     | Returns sr => Returns (sx ++ "," ++ sr)
                     end
                 end
             end
         end) items
  | Obj props =>
      if has_key "toString" props then Throws (ThrowOther cannot_convert)
      else Returns "[object Object]"
  end.

(** Plain data: the values that convert to a string, and to the string
    [ToString] gives.  Its integers are safe integers, and its objects have
    no member of their own named [toString]. *)
Fixpoint plain (v : value) : bool :=
  match v with
  | Num z => Z.abs z <=? MAX_SAFE_INTEGER
  | Arr items =>
      (fix all (l : list value) : bool :=
         match l with
         | [] => true
         | x :: rest => plain x && all rest
         end) items
  | Obj props => negb (has_key "toString" props)
  | _ => true
  end.

(** The text of an element in a joined array. *)
Definition element_text (x : value) : Outcome string :=
  match x with
  | Undefined | Null => Returns ""
  | _ => ToString x
  end.

(** [super(message)] down to [Error]: an [undefined] message leaves the
    inherited empty one, anything else is converted to a string. *)
Definition Error_message (message : value) : Outcome string :=
  match message with
  | Undefined => Returns ""
  | _ => ToString message
  end.

(** A parameter with a default value takes it when the argument is
    [undefined]. *)
Definition default_to (d arg : value) : value :=
  match arg with
  | Undefined => d
  | _ => arg
  end.

(** The constructors: each returns its instance, or throws what the
    conversion of an argument to a string throws. *)
Definition new_RailScoreError (message : value) : Outcome RailScoreError :=
  and_then (Error_message message) (fun msg => Returns (BaseError msg)).

Definition new_AuthenticationError (message : value)
  : Outcome RailScoreError :=
  and_then
    (Error_message (default_to (Str "Invalid or missing API key") message))
    (fun msg => Returns (AuthenticationError msg)).

Definition new_InsufficientCreditsError (balance required : value)
  : Outcome RailScoreError :=
  and_then (ToString balance) (fun b =>
  and_then (ToString required) (fun q =>
  Returns (InsufficientCreditsError
             ("Insufficient credits. Balance: " ++ b
                ++ ", Required: " ++ q)
             balance required))).

Definition new_ValidationError (message field : value)
  : Outcome RailScoreError :=
  and_then (Error_message message)
    (fun msg => Returns (ValidationError msg field)).

Definition new_RateLimitError (retryAfter : value) : Outcome RailScoreError :=
  let retryAfter := default_to (Num 60) retryAfter in
  and_then (ToString retryAfter) (fun s =>
  Returns (RateLimitError
             ("Rate limit exceeded. Retry after " ++ s ++ " seconds")
             retryAfter)).

Definition new_TimeoutError (message : value) : Outcome RailScoreError :=
  and_then (Error_message (default_to (Str "Request timeout") message))
    (fun msg => Returns (TimeoutError msg)).

Definition new_NetworkError (message : value) (originalError : JsError)
  : Outcome RailScoreError :=
  and_then (Error_message message)
    (fun msg => Returns (NetworkError msg originalError)).

Definition new_ServerError (message : value) (statusCode : Z)
  : Outcome RailScoreError :=
  and_then (Error_message message)
    (fun msg => Returns (ServerError msg statusCode)).

(** [throw new C(...)] in synchronous code: the instance is thrown, unless
    constructing it threw first. *)
Definition raise_new {A} (e : Outcome RailScoreError) : Outcome A :=
  match e with
  | Returns e => Throws (ThrowRail e)
  | Throws t => Throws t
  end.

(** ** Responses ([node-fetch]) *)

(** [response.json()] either rejects (the body is not JSON) or yields the
    parsed value. *)
Inductive JsonResult : Type :=
| JsonThrows (e : JsError)
| JsonValue (v : value).

(** A response: the status line, what [json()] settles to, and the members
    the client has no use for, the headers and the URL among them. *)
Record Response : Type := mkResponse {
  status : Z;
  statusText : string;
  json : JsonResult;
  response_headers : list (string * string);
  response_url : string
}.

(** A response with that status line and body, and no headers. *)
Definition response (status : Z) (statusText : string) (json : JsonResult)
  : Response :=
  {| status := status; statusText := statusText; json := json;
     response_headers := []; response_url := "" |}.

(** [response.ok]: [node-fetch] computes it from the status. *)
Definition ok (r : Response) : bool :=
  (200 <=? status r) && (status r <? 300).

Inductive FetchResult : Type :=
| FetchRejects (e : JsError)
| FetchResolves (r : Response).

(** ** Requests *)

Inductive Dimension : Type :=
| safety | privacy | fairness | transparency | accountability
| reliability | legal_compliance | user_impact.

(** The object [generate] hands to [JSON.stringify]; a member that is
    [undefined] ([None]) is left out of the text. *)
Record GenerateBody : Type := mkGenerateBody {
  prompt : string;
  target_score : option Q;
  dimensions : option (list Dimension);
  max_iterations : option Q;
  temperature : option Q
}.

Inductive RequestBody : Type :=
| JSON_stringify (b : GenerateBody).

Definition Headers : Type := list (string * string).

(** [{...h, k: v}]: an existing key keeps its place and takes the new value,
    a new key goes last. *)
Fixpoint set_header (k v : string) (h : Headers) : Headers :=
  match h with
  | [] => [(k, v)]
  | (k', v') :: rest =>
      if (k' =? k)%string then (k, v) :: rest
      else (k', v') :: set_header k v rest
  end.

(** [{...h, ...extra}] *)
Definition spread (h extra : Headers) : Headers :=
  fold_left (fun acc kv => set_header (fst kv) (snd kv) acc) extra h.

(** [signal] is the abort signal of a controller, given by the delay in
    milliseconds after which its timer aborts. *)
Record RequestInit : Type := mkRequestInit {
  method : option string;
  body : option RequestBody;
  headers : Headers;
  signal : option Z
}.

Record FetchCall : Type := mkFetchCall { url : string; init : RequestInit }.

(** ** Promises *)

Inductive Settled (A : Type) : Type :=
| Fulfilled (a : A)
| Rejected (t : Thrown).
Arguments Fulfilled {A} a.
Arguments Rejected {A} t.

(** An asynchronous computation: the [fetch] calls it made, in order, and
    how it settled. *)
Record Promise (A : Type) : Type := mkPromise {
  calls : list FetchCall;
  settled : Settled A
}.
Arguments mkPromise {A} calls settled.
Arguments calls {A} p.
Arguments settled {A} p.

Definition ret {A} (a : A) : Promise A := mkPromise [] (Fulfilled a).

Definition throw {A} (t : Thrown) : Promise A := mkPromise [] (Rejected t).

(** [await p], then [k] *)
Definition bind {A B} (p : Promise A) (k : A -> Promise B) : Promise B :=
  match settled p with
  | Fulfilled a => mkPromise (calls p ++ calls (k a)) (settled (k a))
  | Rejected t => mkPromise (calls p) (Rejected t)
  end.

(** [try { p } catch (error) { handler }] *)
Definition try_catch {A} (p : Promise A) (handler : Thrown -> Promise A)
  : Promise A :=
  match settled p with
  | Fulfilled _ => p
  | Rejected t =>
      mkPromise (calls p ++ calls (handler t)) (settled (handler t))
  end.

Declare Scope promise_scope.
Delimit Scope promise_scope with promise.
Notation "x <- p ;; k" := (bind p (fun x => k))
  (at level 61, p at next level, right associativity) : promise_scope.
Notation "p ;; k" := (bind p (fun _ => k))
  (at level 61, right associativity) : promise_scope.
#[local] Open Scope promise_scope.

Definition await_json (response : Response) : Promise value :=
  match json response with
  | JsonThrows e => throw (ThrowOther e)
  | JsonValue v => ret v
  end.

(** ** The client ([src/client.ts]) *)

Module Config.
(** [RailScoreConfig]; an optional member that is left out is [None]. *)
Record t : Type := mk {
  apiKey : string;
  baseUrl : option string;
  timeout : option Z
}.
End Config.

Record RailScore : Type := mkRailScore {
  apiKey : string;
  baseUrl : string;
  timeout : Z
}.

(** [config.baseUrl || d], [config.timeout || d]: the default is taken when
    the member is missing and when it is falsy. *)
Definition string_or (s : option string) (d : string) : string :=
  match s with
  | None => d
  | Some s => if (s =? "")%string then d else s
  end.

Definition number_or (n : option Z) (d : Z) : Z :=
  match n with
  | None => d
  | Some n => if n =? 0 then d else n
  end.

(** [new RailScore(config)] *)
Definition new_RailScore (config : Config.t) : Outcome RailScore :=
  if (Config.apiKey config =? "")%string then
    raise_new (new_ValidationError (Str "API key is required") Undefined)
  else
    Returns {| apiKey := Config.apiKey config;
               baseUrl := string_or (Config.baseUrl config)
                            "https://api.responsibleailabs.ai";
               timeout := number_or (Config.timeout config) 60000 |}.

(** [{ message: response.statusText }] *)
Definition status_envelope (response : Response) : value :=
  Obj [("message", Str (statusText response))].

(** The body of an error response as [handleError] reads it: the parsed
    value, replaced by [{ message: response.statusText }] when parsing fails
    and when the value is falsy or its [typeof] is not ['object']. *)
Definition errorData (response : Response) : value :=
  let fallback := status_envelope response in
  let errorData := match json response with
                   | JsonThrows _ => fallback
                   | JsonValue v => v
                   end in
  if negb (truthy errorData) || negb (typeof errorData =? "object")%string
  then fallback
  else errorData.

(** [errorData.message || errorData.error || 'Unknown error'] *)
Definition errorMessage (response : Response) : value :=
  let errorData := errorData response in
  or_else (or_else (get errorData "message") (get errorData "error"))
          (Str "Unknown error").

(** [throw new C(...)] in an asynchronous function. *)
Definition throw_new {A} (e : Outcome RailScoreError) : Promise A :=
  match e with
  | Returns e => throw (ThrowRail e)
  | Throws t => throw t
  end.

(** [handleError(response)]: a [Promise<never>]; every branch of the
    [switch] throws, the instance it constructs or what constructing it
    threw. *)
Definition handleError (response : Response) : Promise Empty_set :=
  let status := status response in
  let errorData := errorData response in
  let message := errorMessage response in
  if status =? 401 then
    throw_new (new_AuthenticationError message)
  else if status =? 402 then
    throw_new (new_InsufficientCreditsError
                 (or_else (get errorData "balance") (Num 0))
                 (or_else (get errorData "required") (Num 0)))
  else if status =? 422 then
    throw_new (new_ValidationError message (get errorData "field"))
  else if status =? 429 then
    throw_new (new_RateLimitError
                 (or_else (get errorData "retry_after") (Num 60)))
  else if (status =? 500) || (status =? 502) || (status =? 503)
          || (status =? 504) then
    throw_new (new_ServerError message status)
  else
    throw_new
      (and_then (ToString message) (fun message =>
       new_RailScoreError
         (Str ("Request failed with status " ++ decimal status
                 ++ ": " ++ message)))).

Section Pipeline.

(** The transport: what [fetch(url, init)] settles to. *)
Variable fetch : string -> RequestInit -> FetchResult.

Definition await_fetch (url : string) (init : RequestInit)
  : Promise Response :=
  mkPromise [mkFetchCall url init]
    match fetch url init with
    | FetchRejects e => Rejected (ThrowOther e)
    | FetchResolves r => Fulfilled r
    end.

(** The second argument of [fetch] in [request]: the caller's options, the
    three headers with the caller's own spread over them, and the signal
    of the controller that the timer aborts after [this.timeout]. *)
Definition request_init (this : RailScore) (options : RequestInit)
  : RequestInit :=
  {| method := method options;
     body := body options;
     headers := spread [("Content-Type", "application/json");
                        ("Authorization", "Bearer " ++ apiKey this);
                        ("User-Agent", "rail-score-js/1.0.0")]
                       (headers options);
     signal := Some (timeout this) |}.

(** The [catch] block of [request].  (The template literal prints
    [this.timeout] as [decimal] does for a safe integer.) *)
Definition request_catch (this : RailScore) (error : Thrown)
  : Promise value :=
  match error with
  | ThrowRail _ => throw error
  | ThrowOther e =>
      if (name e =? "AbortError")%string then
        throw_new (new_TimeoutError
                     (Str ("Request timeout after " ++ decimal (timeout this)
                             ++ "ms")))
      else
        throw_new (new_NetworkError
                     (Str ("Network request failed: " ++ message e)) e)
  end.

(** [this.request(endpoint, options)] *)
Definition request (this : RailScore) (endpoint : string)
  (options : RequestInit) : Promise value :=
  let url := baseUrl this ++ endpoint in
  try_catch
    (response <- await_fetch url (request_init this options) ;;
     (if negb (ok response)
      then (handleError response ;; ret tt)
      else ret tt) ;;
     await_json response)
    (request_catch this).

End Pipeline.

(** ** Generation ([src/generation.ts]) *)

Module GenerationOptions.
Record t : Type := mk {
  targetScore : option Q;
  dimensions : option (list Dimension);
  maxIterations : option Q;
  temperature : option Q
}.
End GenerationOptions.

(** [options?.member] *)
Definition optional {A} (options : option GenerationOptions.t)
  (member : GenerationOptions.t -> option A) : option A :=
  match options with
  | None => None
  | Some o => member o
  end.

(** White space and line terminators among the code units below 256: TAB,
    LF, VT, FF, CR, SP and NBSP. *)
Definition is_whitespace (c : ascii) : bool :=
  let n := N_of_ascii c in
  ((9 <=? n) && (n <=? 13) || (n =? 32) || (n =? 160))%N.

Fixpoint trimStart (s : string) : string :=
  match s with
  | EmptyString => EmptyString
  | String c rest => if is_whitespace c then trimStart rest else s
  end.

Fixpoint trimEnd (s : string) : string :=
  match s with
  | EmptyString => EmptyString
  | String c rest =>
      match trimEnd rest with
      | EmptyString => if is_whitespace c then EmptyString
                       else String c EmptyString
      | kept => String c kept
      end
  end.

(** [s.trim()] *)
Definition trim (s : string) : string := trimEnd (trimStart s).

(** [a < b] on finite numbers *)
Definition Qltb (a b : Q) : bool := negb (Qle_bool b a).

(** [x !== undefined && (x < lo || x > hi)] *)
Definition out_of_range (x : option Q) (lo hi : Q) : bool :=
  match x with
  | None => false
  | Some x => Qltb x lo || Qltb hi x
  end.

Section Generation.

Variable fetch : string -> RequestInit -> FetchResult.

Definition local_ValidationError {A} (message : string) : Promise A :=
  throw_new (new_ValidationError (Str message) Undefined).

(** The options [generate] passes to [request]. *)
Definition generate_init (prompt : string)
  (options : option GenerationOptions.t) : RequestInit :=
  {| method := Some "POST";
     body := Some (JSON_stringify
       {| prompt := prompt;
          target_score := optional options GenerationOptions.targetScore;
          dimensions := optional options GenerationOptions.dimensions;
          max_iterations := optional options GenerationOptions.maxIterations;
          temperature := optional options GenerationOptions.temperature |});
     headers := [];
     signal := None |}.

(** [client.generation.generate(prompt, options)] *)
Definition generate (client : RailScore) (prompt : string)
  (options : option GenerationOptions.t) : Promise value :=
  (if (prompt =? "")%string || (Nat.eqb (String.length (trim prompt)) 0)
   then local_ValidationError "Prompt cannot be empty"
   else ret tt) ;;
  (if out_of_range (optional options GenerationOptions.targetScore) 0 10
   then local_ValidationError "Target score must be between 0 and 10"
   else ret tt) ;;
  (if out_of_range (optional options GenerationOptions.maxIterations) 1 10
   then local_ValidationError "Max iterations must be between 1 and 10"
   else ret tt) ;;
  (if out_of_range (optional options GenerationOptions.temperature) 0 2
   then local_ValidationError "Temperature must be between 0 and 2"
   else ret tt) ;;
  request fetch client "/v1/generation/generate"
    (generate_init prompt options).

End Generation.

(** ** Vocabulary of the specification *)

(** The dispatch table of the classifier: the kind it gives each status. *)
Definition kind_of_status (status : Z) : ErrorKind :=
  if status =? 401 then Authentication
  else if status =? 402 then InsufficientCredits
  else if status =? 422 then Validation
  else if status =? 429 then RateLimit
  else if (status =? 500) || (status =? 502) || (status =? 503)
          || (status =? 504) then Server
  else Generic.

(** The member [k] of the body of a response, as the classifier is to see
    it: the member of a parsed object; nothing on a parsed array; and on a
    body that does not parse or parses to a primitive, the status text for
    [message] and nothing else. *)
Definition body_member (r : Response) (k : string) : value :=
  match json r with
  | JsonValue (Obj props) => lookup k props
  | JsonValue (Arr _) => Undefined
  | _ => if ("message" =? k)%string then Str (statusText r) else Undefined
  end.

(** The message of the body: its member [message], else its member
    [error], else 'Unknown error'. *)
Definition body_message (r : Response) : value :=
  or_else (or_else (body_member r "message") (body_member r "error"))
          (Str "Unknown error").

(** A mapping is a JSON object; the other parsed values are the primitives
    and the arrays. *)
Definition is_mapping (v : value) : bool :=
  match v with
  | Obj _ => true
  | _ => false
  end.

(** A prompt that is empty or made of white space only. *)
Fixpoint whitespace_only (s : string) : bool :=
  match s with
  | EmptyString => true
  | String c rest => is_whitespace c && whitespace_only rest
  end.

(** An option that is given and lies outside the interval [[lo, hi]]. *)
Definition outside (x : option Q) (lo hi : Q) : Prop :=
  exists q, x = Some q /\ (q < lo \/ hi < q)%Q.

(** The arguments [generate] is specified to refuse. *)
Definition invalid_arguments (prompt : string)
  (options : option GenerationOptions.t) : Prop :=
  whitespace_only prompt = true \/
  outside (optional options GenerationOptions.targetScore) 0 10 \/
  outside (optional options GenerationOptions.maxIterations) 1 10 \/
  outside (optional options GenerationOptions.temperature) 0 2.

(** A transport that answers every call with the response [r], and one
    that fails every call with [e]. *)
Definition responds (r : Response) : string -> RequestInit -> FetchResult :=
  fun _ _ => FetchResolves r.

Definition fails (e : JsError) : string -> RequestInit -> FetchResult :=
  fun _ _ => FetchRejects e.

(** ** Sample data *)

Definition test_client : RailScore :=
  {| apiKey := "test-api-key";
     baseUrl := "https://api.responsibleailabs.ai";
     timeout := 60000 |}.

Definition GET : RequestInit :=
  {| method := Some "GET"; body := None; headers := []; signal := None |}.

Definition unauthorized : Response :=
  response 401 "Unauthorized"
    (JsonValue (Obj [("message", Str "Invalid API key")])).

(** The body [{"message": {"toString": 1}}] on a 401. *)
Definition unauthorized_unconvertible : Response :=
  response 401 "Unauthorized"
    (JsonValue (Obj [("message", Obj [("toString", Num 1)])])).



Definition server_error_array : Response :=
  response 500 "Internal Server Error" (JsonValue (Arr [])).

Definition server_error_html : Response :=
  response 500 "Internal Server Error"
    (JsonThrows (mkJsError "SyntaxError" "Unexpected token < in JSON at position 0")).

Definition rate_limited_0 : Response :=
  response 429 "Too Many Requests"
    (JsonValue (Obj [("retry_after", Num 0)])).

Definition rate_limited_30 : Response :=
  response 429 "Too Many Requests"
    (JsonValue (Obj [("retry_after", Num 30)])).

Definition ok_html : Response :=
  response 200 "OK"
    (JsonThrows (mkJsError "SyntaxError" "Unexpected token < in JSON at position 0")).

Definition ok_health : Response :=
  response 200 "OK"
    (JsonValue (Obj [("ok", Boolean true); ("version", Str "1.0.0")])).

Definition unprocessable : Response :=
  response 422 "Unprocessable Entity"
    (JsonValue (Obj [("message", Str "Invalid content");
                     ("field", Str "content")])).


Definition connection_refused : JsError :=
  mkJsError "FetchError"
    "request to https://api.responsibleailabs.ai/v1/credits failed, reason: connect ECONNREFUSED".

Definition aborted : JsError :=
  mkJsError "AbortError" "The user aborted a request.".

Definition privacy_policy_options : GenerationOptions.t :=
  GenerationOptions.mk (Some (9 # 1)%Q)
    (Some [privacy; transparency; legal_compliance]) (Some (3 # 1)%Q) None.

Definition too_hot_options : GenerationOptions.t :=
  GenerationOptions.mk None None None (Some (5 # 2)%Q).

Definition insufficient_credits : Response :=
  response 402 "Payment Required"
    (JsonValue (Obj [("message", Str "Insufficient credits");
                     ("balance", Num 0); ("required", Num 10)])).

Definition server_error_empty_object : Response :=
  response 500 "Internal Server Error" (JsonValue (Obj [])).

Definition server_error_null : Response :=
  response 500 "Error" (JsonValue Null).

(** ** The account methods of the client ([src/client.ts]) *)

(** The characters the [application/x-www-form-urlencoded] serializer of
    [URLSearchParams] leaves alone: letters, digits, [*], [-], [.], [_]. *)
Definition is_unreserved (c : ascii) : bool :=
  let n := N_of_ascii c in
  ((48 <=? n) && (n <=? 57) || (65 <=? n) && (n <=? 90)
   || (97 <=? n) && (n <=? 122)
   || (n =? 42) || (n =? 45) || (n =? 46) || (n =? 95))%N.

Definition hex_digit (n : N) : ascii :=
  match String.get (N.to_nat n) "0123456789ABCDEF" with
  | Some c => c
  | None => "0"%char
  end.

(** [%XX] for a byte *)
Definition percent (byte : N) : string :=
  String "%" (String (hex_digit (byte / 16))
                     (String (hex_digit (byte mod 16)) EmptyString)).

(** One code unit below 256, serialized: a space is [+], an unreserved
    character is itself, anything else is the percent-encoding of its UTF-8
    bytes (one below 128, two from 128 on). *)
Definition urlencode_char (c : ascii) : string :=
  let n := N_of_ascii c in
  if (n =? 32)%N then "+"
  else if is_unreserved c then String c EmptyString
  else if (n <? 128)%N then percent n
  else percent (192 + n / 64) ++ percent (128 + n mod 64).

Fixpoint urlencode (s : string) : string :=
  match s with
  | EmptyString => EmptyString
  | String c rest => urlencode_char c ++ urlencode rest
  end.

(** [new URLSearchParams(entries).toString()] *)
Fixpoint URLSearchParams_toString (entries : list (string * string))
  : string :=
  match entries with
  | [] => ""
  | (k, v) :: rest =>
      let pair := urlencode k ++ "=" ++ urlencode v in
      match rest with
      | [] => pair
      | _ :: _ => pair ++ "&" ++ URLSearchParams_toString rest
      end
  end.

Section Account.

Variable fetch : string -> RequestInit -> FetchResult.

(** [client.getCredits()] *)
Definition getCredits (this : RailScore) : Promise value :=
  request fetch this "/v1/credits" GET.

(** [client.getUsage(limit, fromDate)]: [limit] defaults to 50 when it is
    left out; [from_date] is spread into the parameters when [fromDate] is
    truthy.  [limit.toString()] is [decimal limit] for a safe integer (see
    [decimal]): the theorems on the text of the query bound the limit. *)
Definition getUsage (this : RailScore) (limit : option Z)
  (fromDate : option string) : Promise value :=
  let limit := match limit with None => 50 | Some n => n end in
  let params :=
    ("limit", decimal limit) ::
    match fromDate with
    | None => []
    | Some d => if (d =? "")%string then [] else [("from_date", d)]
    end in
  request fetch this ("/v1/usage?" ++ URLSearchParams_toString params) GET.

(** [client.healthCheck()] *)
Definition healthCheck (this : RailScore) : Promise value :=
  request fetch this "/health" GET.

End Account.

(** ** The API classes ([src/evaluation.ts], [src/generation.ts],
    [src/compliance.ts]) *)

Inductive ComplianceFramework : Type :=
| gdpr | hipaa | ccpa | sox | pci_dss | iso27001 | nist.

(** The string a framework is. *)
Definition framework_name (f : ComplianceFramework) : string :=
  match f with
  | gdpr => "gdpr" | hipaa => "hipaa" | ccpa => "ccpa" | sox => "sox"
  | pci_dss => "pci_dss" | iso27001 => "iso27001" | nist => "nist"
  end.

Inductive Tier : Type := fast | balanced | advanced.

Module BatchItem.
Record t : Type := mk { content : string; id : option string }.
End BatchItem.

Module ContextChunk.
Record t : Type := mk {
  content : string;
  source : option string;
  relevance : option Q
}.
End ContextChunk.

Definition Weights : Type := list (string * Q).

(** The objects the methods hand to [JSON.stringify], one shape per
    method; a member that is [undefined] ([None]) is left out of the
    text. *)
Inductive Payload : Type :=
| ImproveBody (content : string) (target_dimensions : option (list Dimension))
    (target_score : Q)
| RewriteBody (content : string) (issues : list string) (preserve_tone : bool)
| VariationsBody (prompt : string) (dimension_sets : list (list Dimension))
    (count : Q)
| BasicBody (content : string) (weights : option Weights)
| DimensionBody (content : string) (dimension : Dimension)
| CustomBody (content : string) (dimensions : list Dimension)
    (weights : option Weights)
| BatchBody (items : list BatchItem.t) (dimensions : option (list Dimension))
    (tier : Tier)
| RagBody (query response : string) (context_chunks : list ContextChunk.t)
| CheckBody (content : string) (framework : ComplianceFramework)
| CheckMultipleBody (content : string) (frameworks : list ComplianceFramework)
| ScanBody (content : string)
| RecommendationsBody (content : string) (framework : ComplianceFramework)
    (current_violations : option (list string)).

(** [{ method: 'POST', body: JSON.stringify(payload) }] *)
Inductive PostInit : Type :=
| POST (payload : Payload).

(** The [request] method of the client an API class is constructed with,
    for the calls that post a payload. *)
Definition ClientRequest : Type := string -> PostInit -> Promise value.

(** [!s || s.trim().length === 0] *)
Definition blank (s : string) : bool :=
  (s =? "")%string || (Nat.eqb (String.length (trim s)) 0).

(** [for (const x of l) { body }] *)
Fixpoint for_of {A} (l : list A) (body : A -> Promise unit) : Promise unit :=
  match l with
  | [] => ret tt
  | x :: rest => body x ;; for_of rest body
  end.

(** [for (let i = start; i < start + l.length; i++) { body }], where the
    body reads the element at [i]. *)
Fixpoint for_index {A} (i : nat) (l : list A)
  (body : nat -> A -> Promise unit) : Promise unit :=
  match l with
  | [] => ret tt
  | x :: rest => body i x ;; for_index (S i) rest body
  end.

(** [response.k] on what a request fulfilled with, for a property name
    [k] that no prototype defines ([variations], [score], [results]): a
    TypeError on [null] and [undefined], the member otherwise. *)
Definition member (response : value) (k : string) : Promise value :=
  match response with
  | Undefined | Null =>
      throw (ThrowOther
               (mkJsError "TypeError"
                  ("Cannot read properties of "
                     ++ match response with
                        | Null => "null"
                        | _ => "undefined"
                        end
                     ++ " (reading '" ++ k ++ "')")))
  | _ => ret (get response k)
  end.

(** [x = d] in a parameter list *)
Definition default {A} (d : A) (x : option A) : A :=
  match x with
  | None => d
  | Some x => x
  end.

(** [x < lo || x > hi] *)
Definition not_between (x lo hi : Q) : bool := Qltb x lo || Qltb hi x.

Module Generation.
Section Methods.

Variable client_request : ClientRequest.

(** [generation.improve(content, targetDimensions, targetScore = 8.0)] *)
Definition improve (content : string)
  (targetDimensions : option (list Dimension)) (targetScore : option Q)
  : Promise value :=
  let targetScore := default 8%Q targetScore in
  (if blank content
   then local_ValidationError "Content cannot be empty"
   else ret tt) ;;
  (if not_between targetScore 0 10
   then local_ValidationError "Target score must be between 0 and 10"
   else ret tt) ;;
  client_request "/v1/generation/improve"
    (POST (ImproveBody content targetDimensions targetScore)).

(** [generation.rewrite(content, issues, preserveTone = true)] *)
Definition rewrite (content : string) (issues : list string)
  (preserveTone : option bool) : Promise value :=
  let preserveTone := default true preserveTone in
  (if blank content
   then local_ValidationError "Content cannot be empty"
   else ret tt) ;;
  (if Nat.eqb (List.length issues) 0
   then local_ValidationError "At least one issue is required"
   else ret tt) ;;
  for_of issues (fun issue =>
    if blank issue
    then local_ValidationError "Issues cannot contain empty strings"
    else ret tt) ;;
  client_request "/v1/generation/rewrite"
    (POST (RewriteBody content issues preserveTone)).

(** [generation.variations(prompt, dimensionSets, count = 1)] *)
Definition variations (prompt : string)
  (dimensionSets : list (list Dimension)) (count : option Q)
  : Promise value :=
  let count := default 1%Q count in
  (if blank prompt
   then local_ValidationError "Prompt cannot be empty"
   else ret tt) ;;
  (if Nat.eqb (List.length dimensionSets) 0
   then local_ValidationError "At least one dimension set is required"
   else ret tt) ;;
  (if not_between count 1 5
   then local_ValidationError "Count must be between 1 and 5"
   else ret tt) ;;
  for_of dimensionSets (fun dimSet =>
    if Nat.eqb (List.length dimSet) 0
    then local_ValidationError
           "Each dimension set must contain at least one dimension"
    else ret tt) ;;
  response <- client_request "/v1/generation/variations"
                (POST (VariationsBody prompt dimensionSets count)) ;;
  member response "variations".

End Methods.
End Generation.

Module Evaluation.
Section Methods.

Variable client_request : ClientRequest.

(** [evaluation.basic(content, weights)] *)
Definition basic (content : string) (weights : option Weights)
  : Promise value :=
  (if blank content
   then local_ValidationError "Content cannot be empty"
   else ret tt) ;;
  client_request "/v1/evaluation/basic" (POST (BasicBody content weights)).

(** [evaluation.dimension(content, dimension)]; a caller that passes no
    dimension passes [None]. *)
Definition dimension (content : string) (dimension : option Dimension)
  : Promise value :=
  (if blank content
   then local_ValidationError "Content cannot be empty"
   else ret tt) ;;
  match dimension with
  | None => local_ValidationError "Dimension is required"
  | Some dimension =>
      response <- client_request "/v1/evaluation/dimension"
                    (POST (DimensionBody content dimension)) ;;
      member response "score"
  end.

(** [evaluation.custom(content, dimensions, weights)] *)
Definition custom (content : string) (dimensions : list Dimension)
  (weights : option Weights) : Promise value :=
  (if blank content
   then local_ValidationError "Content cannot be empty"
   else ret tt) ;;
  (if Nat.eqb (List.length dimensions) 0
   then local_ValidationError "At least one dimension is required"
   else ret tt) ;;
  client_request "/v1/evaluation/custom"
    (POST (CustomBody content dimensions weights)).

(** [items.map((item, index) => ...)] of [batch], from [index] on: a string
    becomes the item with that content and the id [item-<index>], an item
    is kept. *)
Fixpoint normalize (index : nat) (items : list (string + BatchItem.t))
  : list BatchItem.t :=
  match items with
  | [] => []
  | item :: rest =>
      match item with
      | inl content =>
          BatchItem.mk content
            (Some ("item-" ++ decimal (Z.of_nat index)))
      | inr item => item
      end :: normalize (S index) rest
  end.

(** [evaluation.batch(items, dimensions, tier = 'balanced')] *)
Definition batch (items : list (string + BatchItem.t))
  (dimensions : option (list Dimension)) (tier : option Tier)
  : Promise value :=
  let tier := default balanced tier in
  (if Nat.eqb (List.length items) 0
   then local_ValidationError "Items array cannot be empty"
   else ret tt) ;;
  let normalizedItems := normalize 0 items in
  for_of normalizedItems (fun item =>
    if blank (BatchItem.content item)
    then local_ValidationError
           ("Item " ++ string_or (BatchItem.id item) "unknown"
              ++ " has empty content")
    else ret tt) ;;
  client_request "/v1/evaluation/batch"
    (POST (BatchBody normalizedItems dimensions tier)).

(** [evaluation.ragEvaluate(query, response, contextChunks)] *)
Definition ragEvaluate (query response : string)
  (contextChunks : list ContextChunk.t) : Promise value :=
  (if blank query
   then local_ValidationError "Query cannot be empty"
   else ret tt) ;;
  (if blank response
   then local_ValidationError "Response cannot be empty"
   else ret tt) ;;
  (if Nat.eqb (List.length contextChunks) 0
   then local_ValidationError "At least one context chunk is required"
   else ret tt) ;;
  for_index 0 contextChunks (fun i chunk =>
    if blank (ContextChunk.content chunk)
    then local_ValidationError
           ("Context chunk " ++ decimal (Z.of_nat i) ++ " has empty content")
    else ret tt) ;;
  client_request "/v1/evaluation/rag"
    (POST (RagBody query response contextChunks)).

End Methods.
End Evaluation.

Module Compliance.
Section Methods.

Variable client_request : ClientRequest.
Variable fetch : string -> RequestInit -> FetchResult.
Variable client : RailScore.

(** [compliance.check(content, framework)]; a caller that passes no
    framework passes [None]. *)
Definition check (content : string) (framework : option ComplianceFramework)
  : Promise value :=
  (if blank content
   then local_ValidationError "Content cannot be empty"
   else ret tt) ;;
  match framework with
  | None => local_ValidationError "Framework is required"
  | Some framework =>
      client_request "/v1/compliance/check"
        (POST (CheckBody content framework))
  end.

(** [compliance.checkMultiple(content, frameworks)] *)
Definition checkMultiple (content : string)
  (frameworks : list ComplianceFramework) : Promise value :=
  (if blank content
   then local_ValidationError "Content cannot be empty"
   else ret tt) ;;
  (if Nat.eqb (List.length frameworks) 0
   then local_ValidationError "At least one framework is required"
   else ret tt) ;;
  (if Nat.ltb 10 (List.length frameworks)
   then local_ValidationError "Maximum 10 frameworks allowed per request"
   else ret tt) ;;
  response <- client_request "/v1/compliance/check-multiple"
                (POST (CheckMultipleBody content frameworks)) ;;
  member response "results".

(** [compliance.getRequirements(framework)]: a GET, through the [request]
    of the client. *)
Definition getRequirements (framework : option ComplianceFramework)
  : Promise value :=
  match framework with
  | None => local_ValidationError "Framework is required"
  | Some framework =>
      request fetch client
        ("/v1/compliance/requirements/" ++ framework_name framework) GET
  end.

(** [compliance.scan(content)] *)
Definition scan (content : string) : Promise value :=
  (if blank content
   then local_ValidationError "Content cannot be empty"
   else ret tt) ;;
  client_request "/v1/compliance/scan" (POST (ScanBody content)).

(** [compliance.getRecommendations(content, framework, currentViolations)] *)
Definition getRecommendations (content : string)
  (framework : option ComplianceFramework)
  (currentViolations : option (list string)) : Promise value :=
  (if blank content
   then local_ValidationError "Content cannot be empty"
   else ret tt) ;;
  match framework with
  | None => local_ValidationError "Framework is required"
  | Some framework =>
      client_request "/v1/compliance/recommendations"
        (POST (RecommendationsBody content framework currentViolations))
  end.

(** [compliance.listFrameworks()] *)
Definition listFrameworks : Promise value :=
  request fetch client "/v1/compliance/frameworks" GET.

End Methods.
End Compliance.

(** ** More vocabulary *)

(** The value of the header [k] in [h]. *)
Fixpoint header (k : string) (h : Headers) : option string :=
  match h with
  | [] => None
  | (k', v) :: rest => if (k' =? k)%string then Some v else header k rest
  end.

(** The headers [request] sends when the caller gives none of its own. *)
Definition default_headers (this : RailScore) : Headers :=
  [("Content-Type", "application/json");
   ("Authorization", "Bearer " ++ apiKey this);
   ("User-Agent", "rail-score-js/1.0.0")].

(** The index of the first element that satisfies [p]. *)
Fixpoint first_index {A} (p : A -> bool) (l : list A) : option nat :=
  match l with
  | [] => None
  | x :: rest =>
      if p x then Some 0%nat
      else match first_index p rest with
           | Some i => Some (S i)
           | None => None
           end
  end.

(** A client whose [request] answers every call with [p]. *)
Definition answers (p : Promise value) : ClientRequest := fun _ _ => p.

Definition fulfilled_with (v : value) : Promise value :=
  mkPromise [] (Fulfilled v).

(** Every character of [s] satisfies [p]. *)
Fixpoint all_chars (p : ascii -> bool) (s : string) : bool :=
  match s with
  | EmptyString => true
  | String c rest => p c && all_chars p rest
  end.

(** The characters an encoded parameter is made of: the unreserved ones,
    [+] and [%]. *)
Definition is_encoded (c : ascii) : bool :=
  is_unreserved c || (N_of_ascii c =? 43)%N || (N_of_ascii c =? 37)%N.

(** The content of an item given to [batch], a string or a [BatchItem]. *)
Definition item_content (item : string + BatchItem.t) : string :=
  match item with
  | inl content => content
  | inr item => BatchItem.content item
  end.

(** * Properties *)

(** ** The pipeline on concrete responses *)

Example classify_401 :
  handleError unauthorized =
  throw (ThrowRail (AuthenticationError "Invalid API key")).
Proof. reflexivity. Qed.

Example classify_402 :
  handleError insufficient_credits =
  throw (ThrowRail
           (InsufficientCreditsError
              "Insufficient credits. Balance: 0, Required: 10"
              (Num 0) (Num 10))).
Proof. reflexivity. Qed.

Example classify_429 :
  handleError rate_limited_30 =
  throw (ThrowRail
           (RateLimitError "Rate limit exceeded. Retry after 30 seconds"
                           (Num 30))).
Proof. reflexivity. Qed.

(** An empty object is an envelope without message. *)
Example classify_500_empty_object :
  handleError server_error_empty_object =
  throw (ThrowRail (ServerError "Unknown error" 500)).
Proof. reflexivity. Qed.

(** The 'malformed JSON' case of the test suite: the body [null]. *)
Example classify_500_null :
  handleError server_error_null =
  throw (ThrowRail (ServerError "Error" 500)).
Proof. reflexivity. Qed.

Example request_health :
  request (responds ok_health) test_client "/health" GET =
  mkPromise
    [mkFetchCall "https://api.responsibleailabs.ai/health"
       {| method := Some "GET";
          body := None;
          headers := [("Content-Type", "application/json");
                      ("Authorization", "Bearer test-api-key");
                      ("User-Agent", "rail-score-js/1.0.0")];
          signal := Some 60000 |}]
    (Fulfilled (Obj [("ok", Boolean true); ("version", Str "1.0.0")])).
Proof. reflexivity. Qed.

Example request_aborted :
  settled (request (fails aborted) test_client "/v1/credits" GET) =
  Rejected (ThrowRail (TimeoutError "Request timeout after 60000ms")).
Proof. reflexivity. Qed.

Example generate_too_hot :
  generate (responds ok_health) test_client "Write a privacy policy"
    (Some too_hot_options) =
  mkPromise []
    (Rejected (ThrowRail
       (ValidationError "Temperature must be between 0 and 2" Undefined))).
Proof. reflexivity. Qed.

Example generate_privacy_policy :
  calls (generate (responds ok_health) test_client "Write a privacy policy"
           (Some privacy_policy_options)) =
  [mkFetchCall "https://api.responsibleailabs.ai/v1/generation/generate"
     (request_init test_client
        (generate_init "Write a privacy policy"
           (Some privacy_policy_options)))].
Proof. reflexivity. Qed.

(** ** Conversion to a string *)

(** Induction on a value, with the elements of an array at hand. *)
Lemma value_ind_array (P : value -> Prop) :
  P Undefined -> P Null -> (forall b, P (Boolean b)) ->
  (forall z, P (Num z)) -> (forall s, P (Str s)) ->
  (forall items, Forall P items -> P (Arr items)) ->
  (forall props, P (Obj props)) ->
  forall v, P v.
Proof.
  intros HU HN HB HZ HS HA HO. fix IH 1.
  intros [| | b | z | s | items | props];
    [exact HU | exact HN | apply HB | apply HZ | apply HS | | apply HO].
  apply HA.
  refine ((fix all (l : list value) : Forall P l :=
             match l with
             | [] => Forall_nil P
             | x :: rest => Forall_cons x (IH x) (all rest)
             end) items).
Qed.

Lemma ToString_cons (x : value) (rest : list value) :
  ToString (Arr (x :: rest)) =
  match element_text x with
  | Throws t => Throws t
  | Returns sx =>
      match rest with
      | [] => Returns sx
      | _ :: _ =>
          match ToString (Arr rest) with
          | Throws t => Throws t
          | Returns sr => Returns (sx ++ "," ++ sr)
          end
      end
  end.
Proof. reflexivity. Qed.

(** All that a conversion throws is the TypeError of the engine. *)
Lemma ToString_throws (v : value) (t : Thrown) :
  ToString v = Throws t -> t = ThrowOther cannot_convert.
Proof.
  revert t. induction v as [| | b | z | s | items IH | props]
    using value_ind_array; intros t H; try discriminate H.
  - destruct b; discriminate H.
  - induction IH as [| x rest Hx _ IHrest]; [discriminate H |].
    rewrite ToString_cons in H.
    destruct (element_text x) as [sx | tx] eqn:Ex.
    + destruct rest as [| y rest']; [discriminate H |].
      destruct (ToString (Arr (y :: rest'))) as [sr | tr] eqn:Er;
        [discriminate H |].
      inversion H; subst. now apply IHrest.
    + inversion H; subst. apply Hx.
      destruct x; try discriminate Ex; exact Ex.
  - simpl in H. destruct (has_key "toString" props); now inversion H.
Qed.

(** Plain data converts. *)
Lemma plain_converts (v : value) :
  plain v = true -> exists s, ToString v = Returns s.
Proof.
  induction v as [| | b | z | s | items IH | props]
    using value_ind_array; intros H; try (simpl; eauto; fail).
  - destruct b; simpl; eauto.
  - induction IH as [| x rest Hx _ IHrest]; [simpl; eauto |].
    change (plain (Arr (x :: rest))) with (plain x && plain (Arr rest)) in H.
    apply andb_true_iff in H. destruct H as [Px Pr].
    rewrite ToString_cons.
    assert (Ex : exists sx, element_text x = Returns sx).
    { destruct (Hx Px) as [sx E]. destruct x; simpl; eauto. }
    destruct Ex as [sx Ex]. rewrite Ex.
    destruct rest as [| y rest']; [eauto |].
    destruct (IHrest Pr) as [sr Er]. rewrite Er. eauto.
  - simpl in *. apply negb_true_iff in H. rewrite H. eauto.
Qed.

(** ** The classifier *)

Lemma errorMessage_truthy (r : Response) : truthy (errorMessage r) = true.
Proof.
  unfold errorMessage, or_else.
  destruct (truthy (get (errorData r) "message")) eqn:Hm.
  - now rewrite Hm.
  - destruct (truthy (get (errorData r) "error")) eqn:He.
    + now rewrite He.
    + reflexivity.
Qed.

Lemma Error_message_truthy (v : value) :
  truthy v = true -> Error_message v = ToString v.
Proof. destruct v; simpl; congruence. Qed.

Lemma default_to_truthy (d v : value) :
  truthy v = true -> default_to d v = v.
Proof. destruct v; simpl; congruence. Qed.

Lemma or_else_truthy (a d : value) :
  truthy d = true -> truthy (or_else a d) = true.
Proof. unfold or_else. destruct (truthy a) eqn:Ha; congruence. Qed.

(** The envelope has the members of the body. *)
Lemma get_errorData (r : Response) (k : string) :
  get (errorData r) k = body_member r k.
Proof.
  unfold errorData, body_member, status_envelope.
  destruct (json r) as [e | v]; [reflexivity |].
  destruct v as [| | b | z | s | items | props]; simpl; try reflexivity.
  - now destruct b.
  - now destruct (z =? 0).
  - now destruct (s =? "")%string.
Qed.

Lemma errorMessage_body_message (r : Response) :
  errorMessage r = body_message r.
Proof. unfold errorMessage, body_message. now rewrite !get_errorData. Qed.

(** What [handleError] does on each row of its [switch]: it throws the
    error of the row, or the TypeError of a member that does not convert
    to a string. *)
Lemma handleError_401 (r : Response) :
  status r = 401 ->
  handleError r =
  match ToString (errorMessage r) with
  | Returns m => throw (ThrowRail (AuthenticationError m))
  | Throws t => throw t
  end.
Proof.
  intros H. unfold handleError, new_AuthenticationError. rewrite H. simpl.
  rewrite default_to_truthy, Error_message_truthy;
    auto using errorMessage_truthy.
  now destruct (ToString (errorMessage r)).
Qed.

Lemma handleError_402 (r : Response) :
  status r = 402 ->
  let balance := or_else (get (errorData r) "balance") (Num 0) in
  let required := or_else (get (errorData r) "required") (Num 0) in
  handleError r =
  match ToString balance, ToString required with
  | Returns b, Returns q =>
      throw (ThrowRail
               (InsufficientCreditsError
                  ("Insufficient credits. Balance: " ++ b
                     ++ ", Required: " ++ q) balance required))
  | Throws t, _ | Returns _, Throws t => throw t
  end.
Proof.
  intros H balance required.
  unfold handleError, new_InsufficientCreditsError. rewrite H. simpl.
  fold balance required.
  destruct (ToString balance); [| reflexivity].
  now destruct (ToString required).
Qed.

Lemma handleError_422 (r : Response) :
  status r = 422 ->
  handleError r =
  match ToString (errorMessage r) with
  | Returns m =>
      throw (ThrowRail (ValidationError m (get (errorData r) "field")))
  | Throws t => throw t
  end.
Proof.
  intros H. unfold handleError, new_ValidationError. rewrite H. simpl.
  rewrite Error_message_truthy; auto using errorMessage_truthy.
  now destruct (ToString (errorMessage r)).
Qed.

Lemma handleError_429 (r : Response) :
  status r = 429 ->
  let retryAfter := or_else (get (errorData r) "retry_after") (Num 60) in
  handleError r =
  match ToString retryAfter with
  | Returns s =>
      throw (ThrowRail
               (RateLimitError
                  ("Rate limit exceeded. Retry after " ++ s ++ " seconds")
                  retryAfter))
  | Throws t => throw t
  end.
Proof.
  intros H retryAfter. unfold handleError, new_RateLimitError.
  rewrite H. simpl. fold retryAfter.
  rewrite default_to_truthy by (apply or_else_truthy; reflexivity).
  now destruct (ToString retryAfter).
Qed.

Lemma handleError_5xx (r : Response) :
  status r = 500 \/ status r = 502 \/ status r = 503 \/ status r = 504 ->
  handleError r =
  match ToString (errorMessage r) with
  | Returns m => throw (ThrowRail (ServerError m (status r)))
  | Throws t => throw t
  end.
Proof.
  intros H. unfold handleError, new_ServerError.
  rewrite Error_message_truthy by apply errorMessage_truthy.
  destruct H as [H | [H | [H | H]]]; rewrite H; simpl;
    now destruct (ToString (errorMessage r)).
Qed.

Lemma handleError_default (r : Response) :
  kind_of_status (status r) = Generic ->
  handleError r =
  match ToString (errorMessage r) with
  | Returns m =>
      throw (ThrowRail
               (BaseError ("Request failed with status "
                             ++ decimal (status r) ++ ": " ++ m)))
  | Throws t => throw t
  end.
Proof.
  unfold kind_of_status, handleError.
  destruct (status r =? 401); [discriminate |].
  destruct (status r =? 402); [discriminate |].
  destruct (status r =? 422); [discriminate |].
  destruct (status r =? 429); [discriminate |].
  destruct ((status r =? 500) || (status r =? 502) || (status r =? 503)
            || (status r =? 504)); [discriminate |].
  intros _. now destruct (ToString (errorMessage r)).
Qed.

Lemma kind_of_status_cases (s : Z) :
  (s = 401 /\ kind_of_status s = Authentication) \/
  (s = 402 /\ kind_of_status s = InsufficientCredits) \/
  (s = 422 /\ kind_of_status s = Validation) \/
  (s = 429 /\ kind_of_status s = RateLimit) \/
  ((s = 500 \/ s = 502 \/ s = 503 \/ s = 504) /\ kind_of_status s = Server) \/
  (kind_of_status s = Generic).
Proof.
  unfold kind_of_status.
  destruct (Z.eqb_spec s 401); [auto |].
  destruct (Z.eqb_spec s 402); [auto |].
  destruct (Z.eqb_spec s 422); [auto 6 |].
  destruct (Z.eqb_spec s 429); [auto 6 |].
  destruct (Z.eqb_spec s 500); [simpl; auto 10 |].
  destruct (Z.eqb_spec s 502); [simpl; auto 10 |].
  destruct (Z.eqb_spec s 503); [simpl; auto 10 |].
  destruct (Z.eqb_spec s 504); [simpl; auto 10 |].
  simpl. auto 10.
Qed.

(** [handleError] never returns.  What it throws is an instance of
    [RailScoreError] of the kind of the status, or the TypeError of a
    conversion. *)
Lemma handleError_throws (r : Response) :
  exists t,
    handleError r = throw t /\
    ((exists e, t = ThrowRail e /\ kind e = kind_of_status (status r)) \/
     t = ThrowOther cannot_convert).
Proof.
  destruct (kind_of_status_cases (status r))
    as [[H K] | [[H K] | [[H K] | [[H K] | [[H K] | K]]]]]; rewrite K.
  - rewrite (handleError_401 _ H).
    destruct (ToString (errorMessage r)) as [m | t] eqn:E; eauto 8.
    apply ToString_throws in E. subst. eauto.
  - rewrite (handleError_402 _ H).
    destruct (ToString (or_else (get (errorData r) "balance") (Num 0)))
      as [b | t] eqn:Eb.
    + destruct (ToString (or_else (get (errorData r) "required") (Num 0)))
        as [q | t] eqn:Eq; eauto 8.
      apply ToString_throws in Eq. subst. eauto.
    + apply ToString_throws in Eb. subst. eauto.
  - rewrite (handleError_422 _ H).
    destruct (ToString (errorMessage r)) as [m | t] eqn:E; eauto 8.
    apply ToString_throws in E. subst. eauto.
  - rewrite (handleError_429 _ H).
    destruct (ToString (or_else (get (errorData r) "retry_after") (Num 60)))
      as [s | t] eqn:E; eauto 8.
    apply ToString_throws in E. subst. eauto.
  - rewrite (handleError_5xx _ H).
    destruct (ToString (errorMessage r)) as [m | t] eqn:E; eauto 8.
    apply ToString_throws in E. subst. eauto.
  - rewrite (handleError_default _ K).
    destruct (ToString (errorMessage r)) as [m | t] eqn:E; eauto 8.
    apply ToString_throws in E. subst. eauto.
Qed.

Lemma throw_injective {A} (t1 t2 : Thrown) :
  @throw A t1 = throw t2 -> t1 = t2.
Proof. intros H. now inversion H. Qed.

Lemma handleError_kind (r : Response) (e : RailScoreError) :
  handleError r = throw (ThrowRail e) -> kind e = kind_of_status (status r).
Proof.
  intros He. destruct (handleError_throws r) as [t [Ht Hk]].
  rewrite Ht in He. apply throw_injective in He. subst t.
  destruct Hk as [[e' [E K]] | E]; [| discriminate E].
  now inversion E.
Qed.

Lemma kind_of_status_not_local (s : Z) :
  kind_of_status s <> Timeout /\ kind_of_status s <> Network.
Proof.
  destruct (kind_of_status_cases s)
    as [[_ K] | [[_ K] | [[_ K] | [[_ K] | [[_ K] | K]]]]];
    rewrite K; split; discriminate.
Qed.

(** C1.  The claim fails in the code on a body whose message does not
    convert to a string.  On the 401 response with the body
    [{"message": {"toString": 1}}] the body parses, the status is the one
    of the Authentication row, and [handleError] throws the TypeError of
    the conversion made by [Error(message)]: no [RailScoreError] of any
    kind. *)
Theorem handleError_throws_TypeError :
  status unauthorized_unconvertible = 401 /\
  kind_of_status (status unauthorized_unconvertible) = Authentication /\
  errorMessage unauthorized_unconvertible = Obj [("toString", Num 1)] /\
  handleError unauthorized_unconvertible = throw (ThrowOther cannot_convert) /\
  forall e, handleError unauthorized_unconvertible <> throw (ThrowRail e).
Proof. repeat split; try reflexivity. intros e H. discriminate H. Qed.

(** C4, as amended.  The envelope is [{ message: statusText }] when the body
    does not parse and when the parsed value is a primitive (null, a
    boolean, a number, a string).  A parsed array, like a parsed object, is
    kept as it is; none of the members read from the envelope exists on an
    array, so that its message is 'Unknown error'. *)
Theorem errorData_cases (r : Response) :
  match json r with
  | JsonThrows _ => errorData r = status_envelope r
  | JsonValue (Obj props) => errorData r = Obj props
  | JsonValue (Arr items) =>
      errorData r = Arr items /\ errorMessage r = Str "Unknown error"
  | JsonValue _ => errorData r = status_envelope r
  end.
Proof.
  unfold errorMessage, errorData.
  destruct (json r) as [e | v]; [reflexivity |].
  destruct v as [| | b | z | s | items | props]; simpl; try reflexivity.
  - now destruct b.
  - now destruct (z =? 0).
  - now destruct (s =? "")%string.
  - split; reflexivity.
Qed.

(** C4 fails on an array: the body [[]] of a 500 response is parsed and is
    not a mapping, yet it is kept as the envelope, so that the message is
    'Unknown error' and not the status text. *)
Lemma errorData_array_kept :
  json server_error_array = JsonValue (Arr []) /\
  is_mapping (Arr []) = false /\
  errorData server_error_array = Arr [] /\
  errorData server_error_array <> status_envelope server_error_array /\
  handleError server_error_array =
    throw (ThrowRail (ServerError "Unknown error" 500)).
Proof. repeat split; try reflexivity; discriminate. Qed.

(** C5, as amended.  On status 429 the retry-after seconds are the member
    [retry_after] of the body when that member is truthy and plain data,
    the message of the error printing it; they are 60 when the member is
    absent or falsy (0, the empty string, null, false). *)
Theorem retry_after_or_60 (r : Response) :
  status r = 429 ->
  let retry_after := body_member r "retry_after" in
  (truthy retry_after = true ->
   plain retry_after = true ->
   exists s,
     ToString retry_after = Returns s /\
     handleError r =
     throw (ThrowRail
              (RateLimitError
                 ("Rate limit exceeded. Retry after " ++ s ++ " seconds")
                 retry_after))) /\
  (truthy retry_after = false ->
   handleError r =
   throw (ThrowRail
            (RateLimitError "Rate limit exceeded. Retry after 60 seconds"
                            (Num 60)))).
Proof.
  intros H ra. rewrite (handleError_429 _ H), get_errorData. fold ra.
  unfold or_else. split.
  - intros T P. rewrite T. destruct (plain_converts _ P) as [s E].
    exists s. now rewrite E.
  - intros T. now rewrite T.
Qed.

Lemma retry_after_or_60_witness :
  exists s,
    ToString (Num 30) = Returns s /\
    handleError rate_limited_30 =
    throw (ThrowRail
             (RateLimitError
                ("Rate limit exceeded. Retry after " ++ s ++ " seconds")
                (Num 30))).
Proof.
  exact (proj1 (retry_after_or_60 rate_limited_30 eq_refl) eq_refl eq_refl).
Defined.

(** C5 fails on [retry_after: 0]: the member is present, with the value 0,
    and the error carries 60. *)
Lemma retry_after_zero_gives_60 :
  status rate_limited_0 = 429 /\
  get (errorData rate_limited_0) "retry_after" = Num 0 /\
  handleError rate_limited_0 =
    throw (ThrowRail
             (RateLimitError "Rate limit exceeded. Retry after 60 seconds"
                             (Num 60))) /\
  Num 60 <> Num 0.
Proof. repeat split; try reflexivity; discriminate. Qed.




(** ** The request executor *)

Section Request.

Variable fetch : string -> RequestInit -> FetchResult.
Variable this : RailScore.
Variable endpoint : string.
Variable options : RequestInit.

#[local] Abbreviation url := (baseUrl this ++ endpoint)%string.
#[local] Abbreviation init := (request_init this options).

(** Every call of [request] makes exactly one call of [fetch]. *)
Lemma request_calls :
  calls (request fetch this endpoint options) = [mkFetchCall url init].
Proof.
  unfold request, try_catch, bind, await_fetch. simpl.
  destruct (fetch url init) as [e | r]; simpl.
  - now destruct (request_catch this (ThrowOther e)) eqn:E;
      unfold request_catch in E; destruct (name e =? "AbortError")%string;
      inversion E.
  - destruct (ok r); simpl.
    + unfold await_json. destruct (json r) as [e | v]; simpl;
        [| reflexivity].
      now destruct (name e =? "AbortError")%string.
    + destruct (handleError_throws r) as [t [Ht _]]. rewrite Ht. simpl.
      destruct t as [e | e]; simpl; [reflexivity |].
      now destruct (name e =? "AbortError")%string.
Qed.

Lemma request_fetch_rejects (e : JsError) :
  fetch url init = FetchRejects e ->
  settled (request fetch this endpoint options) =
  settled (request_catch this (ThrowOther e)).
Proof.
  intros H. unfold request, try_catch, bind, await_fetch.
  now rewrite H.
Qed.

Lemma request_not_ok (r : Response) (t : Thrown) :
  fetch url init = FetchResolves r ->
  ok r = false ->
  handleError r = throw t ->
  settled (request fetch this endpoint options) =
  settled (request_catch this t).
Proof.
  intros H Hok He. unfold request, try_catch, bind, await_fetch.
  rewrite H. simpl. rewrite Hok, He. reflexivity.
Qed.

(** What [request] rejects with when the response is not 2xx: the error
    of the status, or the NetworkError that wraps the TypeError of a
    conversion. *)
Lemma request_not_ok_cases (r : Response) :
  fetch url init = FetchResolves r ->
  ok r = false ->
  (exists e,
     handleError r = throw (ThrowRail e) /\
     kind e = kind_of_status (status r) /\
     settled (request fetch this endpoint options) = Rejected (ThrowRail e)) \/
  (handleError r = throw (ThrowOther cannot_convert) /\
   settled (request fetch this endpoint options) =
   Rejected (ThrowRail
     (NetworkError ("Network request failed: " ++ message cannot_convert)
                   cannot_convert))).
Proof.
  intros H Hok.
  destruct (handleError_throws r) as [t [Ht [[e [E K]] | E]]]; subst t.
  - left. exists e. repeat split; trivial.
    now rewrite (request_not_ok _ _ H Hok Ht).
  - right. split; [exact Ht |].
    now rewrite (request_not_ok _ _ H Hok Ht).
Qed.

Lemma request_ok (r : Response) :
  fetch url init = FetchResolves r ->
  ok r = true ->
  settled (request fetch this endpoint options) =
  match json r with
  | JsonValue v => Fulfilled v
  | JsonThrows e => settled (request_catch this (ThrowOther e))
  end.
Proof.
  intros H Hok. unfold request, try_catch, bind, await_fetch.
  rewrite H. simpl. rewrite Hok. simpl.
  unfold await_json. now destruct (json r).
Qed.

Lemma request_catch_other (e : JsError) :
  settled (request_catch this (ThrowOther e)) =
  Rejected (ThrowRail
    (if (name e =? "AbortError")%string
     then TimeoutError ("Request timeout after " ++ decimal (timeout this)
                          ++ "ms")
     else NetworkError ("Network request failed: " ++ message e) e)).
Proof.
  unfold request_catch. now destruct (name e =? "AbortError")%string.
Qed.

End Request.

(** C2.  The claim fails in the code on the 401 response whose body is
    [{"message": {"toString": 1}}]: the response is not 2xx, the error of
    its status is the Authentication error, and [request] rejects with a
    Network error, the TypeError that [handleError] throws being caught and
    wrapped by the [catch] block. *)
Theorem request_wraps_TypeError :
  ok unauthorized_unconvertible = false /\
  kind_of_status (status unauthorized_unconvertible) = Authentication /\
  handleError unauthorized_unconvertible = throw (ThrowOther cannot_convert) /\
  settled (request (responds unauthorized_unconvertible) test_client
             "/v1/credits" GET) =
  Rejected (ThrowRail
    (NetworkError
       "Network request failed: Cannot convert object to primitive value"
       cannot_convert)).
Proof. repeat split. Qed.

(** C3, as amended.  When the response is 2xx and its body parses,
    [request] fulfils with the parsed value, unchanged.  When the body of a
    2xx response does not parse, the failure is caught by the [catch] block
    of [request] and raised as a Network error that wraps it (a Timeout
    error if the failure is named AbortError). *)
Theorem request_2xx
  (fetch : string -> RequestInit -> FetchResult) (this : RailScore)
  (endpoint : string) (options : RequestInit) (r : Response) :
  fetch (baseUrl this ++ endpoint) (request_init this options)
    = FetchResolves r ->
  ok r = true ->
  match json r with
  | JsonValue v =>
      settled (request fetch this endpoint options) = Fulfilled v
  | JsonThrows e =>
      settled (request fetch this endpoint options) =
      Rejected (ThrowRail
        (if (name e =? "AbortError")%string
         then TimeoutError ("Request timeout after "
                              ++ decimal (timeout this) ++ "ms")
         else NetworkError ("Network request failed: " ++ message e) e))
  end.
Proof.
  intros H Hok. rewrite (request_ok _ _ _ _ _ H Hok).
  destruct (json r) as [e | v]; [apply request_catch_other | reflexivity].
Qed.

Lemma request_2xx_witness :
  settled (request (responds ok_health) test_client "/health" GET)
  = Fulfilled (Obj [("ok", Boolean true); ("version", Str "1.0.0")]).
Proof.
  exact (request_2xx (responds ok_health) test_client "/health" GET
           ok_health eq_refl eq_refl).
Defined.

(** C3 fails on a 2xx response whose body is not JSON: the parse failure
    does not reach the caller as it is, [request] rejects with a
    NetworkError, one of the classified kinds. *)
Lemma malformed_2xx_is_NetworkError :
  ok ok_html = true /\
  json ok_html =
    JsonThrows (mkJsError "SyntaxError"
                          "Unexpected token < in JSON at position 0") /\
  settled (request (responds ok_html) test_client "/health" GET) =
    Rejected (ThrowRail
      (NetworkError
         "Network request failed: Unexpected token < in JSON at position 0"
         (mkJsError "SyntaxError"
                    "Unexpected token < in JSON at position 0"))) /\
  settled (request (responds ok_html) test_client "/health" GET) <>
    Rejected (ThrowOther
      (mkJsError "SyntaxError" "Unexpected token < in JSON at position 0")).
Proof. repeat split; try reflexivity; discriminate. Qed.

(** C6.  When [fetch] rejects with anything but the AbortError of the
    abort signal, [request] rejects with a NetworkError whose
    [originalError] is that rejection, and not with a TimeoutError; and
    [request] rejects with a TimeoutError only when an AbortError was
    caught, from [fetch] or while the body of a 2xx response was read. *)
Theorem transport_failure_is_NetworkError
  (fetch : string -> RequestInit -> FetchResult) (this : RailScore)
  (endpoint : string) (options : RequestInit) :
  (forall e,
     fetch (baseUrl this ++ endpoint) (request_init this options)
       = FetchRejects e ->
     name e <> "AbortError" ->
     settled (request fetch this endpoint options) =
     Rejected (ThrowRail
       (NetworkError ("Network request failed: " ++ message e) e))) /\
  (forall m,
     settled (request fetch this endpoint options)
       = Rejected (ThrowRail (TimeoutError m)) ->
     exists e,
       name e = "AbortError" /\
       (fetch (baseUrl this ++ endpoint) (request_init this options)
          = FetchRejects e \/
        exists r,
          fetch (baseUrl this ++ endpoint) (request_init this options)
            = FetchResolves r /\ ok r = true /\ json r = JsonThrows e)).
Proof.
  split.
  - intros e H Hn.
    rewrite (request_fetch_rejects _ _ _ _ _ H), request_catch_other.
    apply String.eqb_neq in Hn. now rewrite Hn.
  - intros m Hm.
    destruct (fetch (baseUrl this ++ endpoint) (request_init this options))
      as [e | r] eqn:H.
    + rewrite (request_fetch_rejects _ _ _ _ _ H), request_catch_other in Hm.
      destruct (String.eqb_spec (name e) "AbortError") as [Hn | Hn];
        [| discriminate].
      exists e. auto.
    + destruct (ok r) eqn:Hok.
      * rewrite (request_ok _ _ _ _ _ H Hok) in Hm.
        destruct (json r) as [e | v] eqn:Hj; [| discriminate].
        rewrite request_catch_other in Hm.
        destruct (String.eqb_spec (name e) "AbortError") as [Hn | Hn];
          [| discriminate].
        exists e. split; [exact Hn |]. right. now exists r.
      * destruct (request_not_ok_cases _ _ _ _ r H Hok)
          as [[e [He [K Hs]]] | [_ Hs]]; rewrite Hs in Hm;
          [| discriminate].
        inversion Hm; subst e. simpl in K.
        destruct (kind_of_status_not_local (status r)) as [K' _].
        now elim K'.
Qed.

Lemma transport_failure_is_NetworkError_witness :
  settled (request (fails connection_refused) test_client "/v1/credits" GET)
  = Rejected (ThrowRail
      (NetworkError
         ("Network request failed: " ++ message connection_refused)
         connection_refused)).
Proof.
  refine (proj1 (transport_failure_is_NetworkError (fails connection_refused)
                   test_client "/v1/credits" GET) connection_refused eq_refl _).
  discriminate.
Defined.

(** ** The constructor *)

(** C7, as amended.  A construction with an empty credential throws,
    synchronously, the ValidationError 'API key is required' (no field); a
    construction with a non-empty credential returns the client.  The error
    is of the Validation kind, the kind that a call raises on status 422
    (for every 422 response whose message converts to a string): the code
    has no separate Configuration kind. *)
Theorem new_RailScore_requires_apiKey (config : Config.t) :
  (Config.apiKey config = "" ->
   new_RailScore config =
   Throws (ThrowRail (ValidationError "API key is required" Undefined))) /\
  (Config.apiKey config <> "" ->
   exists client,
     new_RailScore config = Returns client /\
     apiKey client = Config.apiKey config) /\
  (forall fetch this endpoint options r m,
     fetch (baseUrl this ++ endpoint) (request_init this options)
       = FetchResolves r ->
     status r = 422 ->
     ToString (errorMessage r) = Returns m ->
     exists e,
       settled (request fetch this endpoint options)
         = Rejected (ThrowRail e) /\
       kind e = kind (ValidationError "API key is required" Undefined)).
Proof.
  unfold new_RailScore. repeat split.
  - intros H. now rewrite H.
  - intros H. apply String.eqb_neq in H. rewrite H. eauto.
  - intros fetch this endpoint options r m H Hs Hm.
    assert (Hok : ok r = false) by (unfold ok; now rewrite Hs).
    assert (He := handleError_422 r Hs). rewrite Hm in He.
    eexists. split.
    + now rewrite (request_not_ok _ _ _ _ _ _ H Hok He).
    + reflexivity.
Qed.

Lemma new_RailScore_requires_apiKey_witness :
  new_RailScore (Config.mk "" None None) =
  Throws (ThrowRail (ValidationError "API key is required" Undefined)).
Proof.
  exact (proj1 (new_RailScore_requires_apiKey (Config.mk "" None None))
           eq_refl).
Defined.

(** C7 fails: the error of a construction with an empty credential has
    the kind of an error raised during a call, here on a 422 response. *)
Lemma construction_error_is_a_call_error :
  Config.apiKey (Config.mk "" None None) = "" /\
  new_RailScore (Config.mk "" None None) =
    Throws (ThrowRail (ValidationError "API key is required" Undefined)) /\
  settled (request (responds unprocessable) test_client "/v1/credits" GET) =
    Rejected (ThrowRail (ValidationError "Invalid content" (Str "content"))) /\
  kind (ValidationError "API key is required" Undefined) =
    kind (ValidationError "Invalid content" (Str "content")) /\
  error_name (ValidationError "API key is required" Undefined) =
    error_name (ValidationError "Invalid content" (Str "content")).
Proof. repeat split. Qed.

(** C10.  The constructor defaults by falsiness: with a timeout of 0 it
    builds the client it builds when the timeout is left out, whose timeout
    is 60000; with the empty base URL it builds the client it builds when
    the base URL is left out, whose base URL is the production one. *)
Theorem new_RailScore_defaults_by_falsiness
  (key : string) (url : option string) (ms : option Z) :
  key <> "" ->
  (new_RailScore (Config.mk key url (Some 0)) =
   new_RailScore (Config.mk key url None) /\
   exists client,
     new_RailScore (Config.mk key url (Some 0)) = Returns client /\
     timeout client = 60000) /\
  (new_RailScore (Config.mk key (Some "") ms) =
   new_RailScore (Config.mk key None ms) /\
   exists client,
     new_RailScore (Config.mk key (Some "") ms) = Returns client /\
     baseUrl client = "https://api.responsibleailabs.ai").
Proof.
  intros H. apply String.eqb_neq in H. unfold new_RailScore. simpl.
  rewrite H. repeat split; eauto.
Qed.

Lemma new_RailScore_defaults_by_falsiness_witness :
  new_RailScore (Config.mk "test-key" None (Some 0)) =
  new_RailScore (Config.mk "test-key" None None).
Proof.
  refine (proj1 (proj1 (new_RailScore_defaults_by_falsiness
                          "test-key" None None _))).
  discriminate.
Defined.

(** ** Local validation in [generate] *)

Lemma trimStart_empty (s : string) :
  trimStart s = EmptyString <-> whitespace_only s = true.
Proof.
  induction s as [| c rest IH]; simpl; [tauto |].
  destruct (is_whitespace c); simpl; [exact IH |].
  split; discriminate.
Qed.

Lemma trimEnd_empty (s : string) :
  trimEnd s = EmptyString <-> whitespace_only s = true.
Proof.
  induction s as [| c rest IH]; simpl; [tauto |].
  destruct (trimEnd rest) as [| c' kept].
  - destruct (is_whitespace c); simpl.
    + split; [intros _; now apply IH | reflexivity].
    + split; discriminate.
  - split; [discriminate |].
    intros H. apply andb_true_iff in H. destruct H as [_ H].
    apply IH in H. discriminate.
Qed.

(** What [trimStart] leaves starts with a character that is not white
    space. *)
Lemma trimStart_head (s : string) :
  whitespace_only (trimStart s) = true -> trimStart s = EmptyString.
Proof.
  induction s as [| c rest IH]; simpl; [reflexivity |].
  destruct (is_whitespace c) eqn:Hc; [exact IH |].
  simpl. rewrite Hc. discriminate.
Qed.

Lemma trim_empty (s : string) :
  trim s = EmptyString <-> whitespace_only s = true.
Proof.
  unfold trim. rewrite trimEnd_empty. split.
  - intros H. apply trimStart_empty. now apply trimStart_head.
  - intros H. apply trimStart_empty in H. now rewrite H.
Qed.

(** The test [generate] makes on its prompt. *)
Lemma prompt_test (prompt : string) :
  (prompt =? "")%string || (Nat.eqb (String.length (trim prompt)) 0)
  = whitespace_only prompt.
Proof.
  destruct (whitespace_only prompt) eqn:W.
  - apply trim_empty in W. rewrite W. simpl. apply orb_true_r.
  - destruct (String.eqb_spec prompt "") as [E | _];
      [subst; discriminate |].
    destruct (trim prompt) eqn:T; [| reflexivity].
    apply trim_empty in T. congruence.
Qed.

Lemma Qltb_lt (a b : Q) : Qltb a b = true <-> (a < b)%Q.
Proof.
  unfold Qltb. rewrite negb_true_iff, <- not_true_iff_false, Qle_bool_iff.
  split; [apply Qnot_le_lt | apply Qlt_not_le].
Qed.

Lemma out_of_range_outside (x : option Q) (lo hi : Q) :
  out_of_range x lo hi = true <-> outside x lo hi.
Proof.
  unfold out_of_range, outside. destruct x as [q |].
  - rewrite orb_true_iff, !Qltb_lt. split.
    + intros H. now exists q.
    + intros [q' [E H]]. now inversion E; subst.
  - split; [discriminate | intros [q [E _]]; discriminate].
Qed.

Lemma out_of_range_inside (x : option Q) (lo hi : Q) :
  ~ outside x lo hi -> out_of_range x lo hi = false.
Proof.
  intros H. apply not_true_iff_false. now rewrite out_of_range_outside.
Qed.

Ltac rejected_locally :=
  simpl; split; [reflexivity | eexists; reflexivity].

(** C8.  When the prompt is empty or white space only, or the target score
    is given outside [0, 10], or the iteration bound outside [1, 10], or the
    temperature outside [0, 2], [generate] rejects with a ValidationError
    without having called [fetch]; otherwise it raises nothing of its own
    and is the request to /v1/generation/generate, which calls [fetch]
    once. *)
Theorem generate_fails_fast
  (fetch : string -> RequestInit -> FetchResult) (client : RailScore)
  (prompt : string) (options : option GenerationOptions.t) :
  (invalid_arguments prompt options ->
   calls (generate fetch client prompt options) = [] /\
   exists m,
     settled (generate fetch client prompt options)
       = Rejected (ThrowRail (ValidationError m Undefined))) /\
  (~ invalid_arguments prompt options ->
   generate fetch client prompt options =
     request fetch client "/v1/generation/generate"
       (generate_init prompt options) /\
   calls (generate fetch client prompt options) =
     [mkFetchCall (baseUrl client ++ "/v1/generation/generate")
        (request_init client (generate_init prompt options))]).
Proof.
  unfold invalid_arguments, generate. rewrite prompt_test.
  split.
  - intros H.
    destruct (whitespace_only prompt) eqn:W; [rejected_locally |].
    destruct (out_of_range (optional options GenerationOptions.targetScore)
                0 10) eqn:T; [rejected_locally |].
    destruct (out_of_range (optional options GenerationOptions.maxIterations)
                1 10) eqn:I; [rejected_locally |].
    destruct (out_of_range (optional options GenerationOptions.temperature)
                0 2) eqn:P; [rejected_locally |].
    exfalso. destruct H as [H | [H | [H | H]]]; [congruence | | |];
      apply out_of_range_outside in H; congruence.
  - intros H.
    destruct (whitespace_only prompt) eqn:W; [elim H; auto |].
    rewrite !out_of_range_inside by tauto.
    assert (E : forall p : Promise value, (ret tt ;; p) = p)
      by (now intros [c s]).
    rewrite !E. split; [reflexivity | apply request_calls].
Qed.

Lemma generate_fails_fast_witness :
  calls (generate (responds ok_health) test_client "   "
           (Some privacy_policy_options)) = [].
Proof.
  refine (proj1 (proj1 (generate_fails_fast (responds ok_health) test_client
                          "   " (Some privacy_policy_options)) _)).
  left. reflexivity.
Defined.

(** * Further properties *)

(** ** The request executor, continued *)

(** X1.  Whatever goes wrong in [request] (the transport, the status, the
    body of a 2xx response), the rejection is an instance of
    [RailScoreError]: nothing foreign reaches the caller. *)
Theorem request_rejects_with_RailScoreError
  (fetch : string -> RequestInit -> FetchResult) (this : RailScore)
  (endpoint : string) (options : RequestInit) (t : Thrown) :
  settled (request fetch this endpoint options) = Rejected t ->
  exists e, t = ThrowRail e.
Proof.
  intros Ht.
  destruct (fetch (baseUrl this ++ endpoint) (request_init this options))
    as [e | r] eqn:H.
  - rewrite (request_fetch_rejects _ _ _ _ _ H), request_catch_other in Ht.
    inversion Ht. eauto.
  - destruct (ok r) eqn:Hok.
    + rewrite (request_ok _ _ _ _ _ H Hok) in Ht.
      destruct (json r) as [e | v]; [| discriminate].
      rewrite request_catch_other in Ht. inversion Ht. eauto.
    + destruct (request_not_ok_cases _ _ _ _ r H Hok)
        as [[e [_ [_ Hs]]] | [_ Hs]]; rewrite Hs in Ht;
        inversion Ht; eauto.
Qed.

Lemma request_rejects_with_RailScoreError_witness :
  exists e,
    ThrowRail (NetworkError
                 ("Network request failed: " ++ message connection_refused)
                 connection_refused) = ThrowRail e.
Proof.
  exact (request_rejects_with_RailScoreError (fails connection_refused)
           test_client "/v1/credits" GET _ eq_refl).
Defined.

(** X2.  [request] never retries: whatever the outcome, it has called
    [fetch] exactly once, at the base URL followed by the endpoint as
    given, with the method and the body of the caller and with the abort
    signal armed for the timeout of the client. *)
Theorem request_calls_fetch_once
  (fetch : string -> RequestInit -> FetchResult) (this : RailScore)
  (endpoint : string) (options : RequestInit) :
  exists call,
    calls (request fetch this endpoint options) = [call] /\
    url call = baseUrl this ++ endpoint /\
    method (init call) = method options /\
    body (init call) = body options /\
    signal (init call) = Some (timeout this).
Proof.
  eexists. split; [apply request_calls |]. now repeat split.
Qed.

Lemma header_set_header (k k' v : string) (h : Headers) :
  header k (set_header k' v h) =
  if (k' =? k)%string then Some v else header k h.
Proof.
  induction h as [| [k0 v0] rest IH]; simpl; [reflexivity |].
  destruct (String.eqb_spec k0 k') as [E | N]; simpl.
  - subst k0. now destruct (k' =? k)%string.
  - destruct (String.eqb_spec k0 k) as [E' | N']; [| exact IH].
    subst k0. apply String.eqb_neq in N.
    now rewrite String.eqb_sym, N.
Qed.

Lemma header_app (k : string) (h1 h2 : Headers) :
  header k (h1 ++ h2)%list =
  match header k h1 with
  | Some v => Some v
  | None => header k h2
  end.
Proof.
  induction h1 as [| [k0 v0] rest IH]; simpl; [reflexivity |].
  now destruct (k0 =? k)%string.
Qed.

Lemma header_spread (k : string) (extra h : Headers) :
  header k (spread h extra) =
  match header k (rev extra) with
  | Some v => Some v
  | None => header k h
  end.
Proof.
  unfold spread. revert h.
  induction extra as [| [k0 v0] rest IH]; intros h; simpl; [reflexivity |].
  rewrite IH, header_app, header_set_header. simpl.
  destruct (header k (rev rest)); [reflexivity |].
  now destruct (k0 =? k)%string.
Qed.

(** X3.  A header the caller gives replaces the default of the same name
    (the last one given, if it is given twice); the other defaults
    (Content-Type, Authorization, User-Agent) are sent as they are. *)
Theorem request_headers_override (this : RailScore) (options : RequestInit)
  (k : string) :
  header k (headers (request_init this options)) =
  match header k (rev (headers options)) with
  | Some v => Some v
  | None => header k (default_headers this)
  end.
Proof. unfold request_init. simpl. apply header_spread. Qed.

(** ** The constructor, continued *)

(** X4.  A client that was constructed has a non-empty API key, a
    non-empty base URL and a timeout that is not 0; a base URL and a
    timeout that were given and are truthy are the ones it has. *)
Theorem new_RailScore_invariant (config : Config.t) (client : RailScore) :
  new_RailScore config = Returns client ->
  apiKey client <> "" /\ baseUrl client <> "" /\ timeout client <> 0 /\
  (forall u, Config.baseUrl config = Some u -> u <> "" ->
             baseUrl client = u) /\
  (forall ms, Config.timeout config = Some ms -> ms <> 0 ->
              timeout client = ms).
Proof.
  unfold new_RailScore.
  destruct (String.eqb_spec (Config.apiKey config) "") as [E | N];
    [discriminate |].
  intros H. inversion H; subst client; clear H; simpl.
  unfold string_or, number_or. repeat split.
  - exact N.
  - destruct (Config.baseUrl config) as [u |]; [| discriminate].
    now destruct (String.eqb_spec u "").
  - destruct (Config.timeout config) as [ms |]; [| discriminate].
    now destruct (Z.eqb_spec ms 0).
  - intros u -> Hu. now destruct (String.eqb_spec u "").
  - intros ms -> Hms. now destruct (Z.eqb_spec ms 0).
Qed.

Lemma new_RailScore_invariant_witness :
  timeout test_client <> 0.
Proof.
  exact (proj1 (proj2 (proj2
           (new_RailScore_invariant (Config.mk "test-api-key" None None)
              test_client eq_refl)))).
Defined.

(** ** The classifier, continued *)

(** X5.  On status 402, a balance and a required amount that are missing
    from the envelope, or falsy, are reported as 0. *)
Theorem insufficient_credits_default_to_0 (r : Response) :
  status r = 402 ->
  truthy (get (errorData r) "balance") = false ->
  truthy (get (errorData r) "required") = false ->
  handleError r =
  throw (ThrowRail
           (InsufficientCreditsError
              "Insufficient credits. Balance: 0, Required: 0"
              (Num 0) (Num 0))).
Proof.
  intros H Hb Hq. rewrite (handleError_402 _ H). unfold or_else.
  now rewrite Hb, Hq.
Qed.

Lemma insufficient_credits_default_to_0_witness :
  handleError (response 402 "Payment Required" (JsonValue (Obj [])))
  = throw (ThrowRail
             (InsufficientCreditsError
                "Insufficient credits. Balance: 0, Required: 0"
                (Num 0) (Num 0))).
Proof.
  exact (insufficient_credits_default_to_0
           (response 402 "Payment Required" (JsonValue (Obj [])))
           eq_refl eq_refl eq_refl).
Defined.

(** X6.  When the body of an error response is not JSON, the error that
    [handleError] throws is made from the status line alone.  Its message
    is the status text, 'Unknown error' when the status text is empty, on
    401, 422 (with no field) and 500, 502, 503, 504; on any other status
    but 402 and 429 it is 'Request failed with status <status>: ' followed
    by that text; on 402 the balance and the required amount are 0, on 429
    the retry-after seconds are 60. *)
Theorem unparsable_body_message (r : Response) (e : JsError) :
  json r = JsonThrows e ->
  Z.abs (status r) <= MAX_SAFE_INTEGER ->
  let message :=
    if (statusText r =? "")%string then "Unknown error" else statusText r in
  handleError r =
  throw (ThrowRail
    match kind_of_status (status r) with
    | Authentication => AuthenticationError message
    | InsufficientCredits =>
        InsufficientCreditsError
          "Insufficient credits. Balance: 0, Required: 0" (Num 0) (Num 0)
    | Validation => ValidationError message Undefined
    | RateLimit =>
        RateLimitError "Rate limit exceeded. Retry after 60 seconds" (Num 60)
    | Server => ServerError message (status r)
    | Generic | Timeout | Network =>
        BaseError ("Request failed with status " ++ decimal (status r)
                     ++ ": " ++ message)
    end).
Proof.
  intros H _ message.
  assert (M : errorMessage r = Str message).
  { rewrite errorMessage_body_message. unfold body_message, body_member.
    rewrite H. simpl. unfold or_else, message. simpl.
    destruct (statusText r =? "")%string eqn:E; simpl; [reflexivity |].
    now rewrite E. }
  assert (G : forall k, (("message" =? k)%string = false) ->
                        get (errorData r) k = Undefined).
  { intros k Hk. rewrite get_errorData. unfold body_member.
    now rewrite H, Hk. }
  destruct (kind_of_status_cases (status r))
    as [[Hs K] | [[Hs K] | [[Hs K] | [[Hs K] | [[Hs K] | K]]]]]; rewrite K.
  - now rewrite (handleError_401 _ Hs), M.
  - rewrite (handleError_402 _ Hs), !G by reflexivity. reflexivity.
  - now rewrite (handleError_422 _ Hs), M, G.
  - rewrite (handleError_429 _ Hs), G by reflexivity. reflexivity.
  - now rewrite (handleError_5xx _ Hs), M.
  - now rewrite (handleError_default _ K), M.
Qed.

Lemma unparsable_body_message_witness :
  handleError server_error_html =
  throw (ThrowRail (ServerError "Internal Server Error" 500)).
Proof.
  refine (unparsable_body_message server_error_html _ eq_refl _).
  vm_compute. discriminate.
Defined.

(** X27.  On a body whose members are plain data, [handleError] throws
    the error of the row of the status, made from the members of the body:
    the message of the body on 401, 422 (with the member [field]) and 500,
    502, 503, 504 (with the status); the members [balance] and [required],
    0 for one that is missing or falsy, on 402; the member [retry_after],
    60 when it is missing or falsy, on 429; and on any other status the
    message 'Request failed with status <status>: <message>'. *)
Theorem handleError_dispatch (r : Response) :
  Z.abs (status r) <= MAX_SAFE_INTEGER ->
  let message := body_message r in
  let balance := or_else (body_member r "balance") (Num 0) in
  let required := or_else (body_member r "required") (Num 0) in
  let retryAfter := or_else (body_member r "retry_after") (Num 60) in
  match kind_of_status (status r) with
  | Authentication =>
      plain message = true ->
      exists m,
        ToString message = Returns m /\
        handleError r = throw (ThrowRail (AuthenticationError m))
  | InsufficientCredits =>
      plain balance = true -> plain required = true ->
      exists b q,
        ToString balance = Returns b /\ ToString required = Returns q /\
        handleError r =
        throw (ThrowRail
                 (InsufficientCreditsError
                    ("Insufficient credits. Balance: " ++ b
                       ++ ", Required: " ++ q) balance required))
  | Validation =>
      plain message = true ->
      exists m,
        ToString message = Returns m /\
        handleError r =
        throw (ThrowRail (ValidationError m (body_member r "field")))
  | RateLimit =>
      plain retryAfter = true ->
      exists s,
        ToString retryAfter = Returns s /\
        handleError r =
        throw (ThrowRail
                 (RateLimitError
                    ("Rate limit exceeded. Retry after " ++ s ++ " seconds")
                    retryAfter))
  | Server =>
      plain message = true ->
      exists m,
        ToString message = Returns m /\
        handleError r = throw (ThrowRail (ServerError m (status r)))
  | Generic | Timeout | Network =>
      plain message = true ->
      exists m,
        ToString message = Returns m /\
        handleError r =
        throw (ThrowRail
                 (BaseError ("Request failed with status "
                               ++ decimal (status r) ++ ": " ++ m)))
  end.
Proof.
  intros _ message balance required retryAfter.
  destruct (kind_of_status_cases (status r))
    as [[Hs K] | [[Hs K] | [[Hs K] | [[Hs K] | [[Hs K] | K]]]]]; rewrite K.
  - intros P. destruct (plain_converts _ P) as [m E]. exists m.
    split; [exact E |].
    rewrite (handleError_401 _ Hs), errorMessage_body_message.
    fold message. now rewrite E.
  - intros Pb Pq. destruct (plain_converts _ Pb) as [b Eb].
    destruct (plain_converts _ Pq) as [q Eq]. exists b, q.
    split; [exact Eb |]. split; [exact Eq |].
    rewrite (handleError_402 _ Hs), !get_errorData.
    fold balance required. now rewrite Eb, Eq.
  - intros P. destruct (plain_converts _ P) as [m E]. exists m.
    split; [exact E |].
    rewrite (handleError_422 _ Hs), errorMessage_body_message, get_errorData.
    fold message. now rewrite E.
  - intros P. destruct (plain_converts _ P) as [s0 E]. exists s0.
    split; [exact E |].
    rewrite (handleError_429 _ Hs), get_errorData.
    fold retryAfter. now rewrite E.
  - intros P. destruct (plain_converts _ P) as [m E]. exists m.
    split; [exact E |].
    rewrite (handleError_5xx _ Hs), errorMessage_body_message.
    fold message. now rewrite E.
  - intros P. destruct (plain_converts _ P) as [m E]. exists m.
    split; [exact E |].
    rewrite (handleError_default _ K), errorMessage_body_message.
    fold message. now rewrite E.
Qed.

Lemma handleError_dispatch_witness :
  exists m,
    ToString (Str "Invalid API key") = Returns m /\
    handleError unauthorized = throw (ThrowRail (AuthenticationError m)).
Proof.
  refine (handleError_dispatch unauthorized _ eq_refl).
  vm_compute. discriminate.
Defined.

(** X28.  When the response is not 2xx, [request] never fulfils: it
    rejects with the very error that [handleError] throws for the response,
    whose kind is the one of the status, or, when [handleError] throws the
    TypeError of a conversion, with the Network error that wraps it.
    Whenever [request] fulfils, the response was 2xx and the value is its
    parsed body. *)
Theorem request_non_2xx_never_fulfils
  (fetch : string -> RequestInit -> FetchResult) (this : RailScore)
  (endpoint : string) (options : RequestInit) :
  (forall r,
     fetch (baseUrl this ++ endpoint) (request_init this options)
       = FetchResolves r ->
     ok r = false ->
     exists e,
       settled (request fetch this endpoint options)
         = Rejected (ThrowRail e) /\
       ((handleError r = throw (ThrowRail e) /\
         kind e = kind_of_status (status r)) \/
        (handleError r = throw (ThrowOther cannot_convert) /\
         e = NetworkError
               "Network request failed: Cannot convert object to primitive value"
               cannot_convert))) /\
  (forall v,
     settled (request fetch this endpoint options) = Fulfilled v ->
     exists r,
       fetch (baseUrl this ++ endpoint) (request_init this options)
         = FetchResolves r /\
       ok r = true /\
       json r = JsonValue v).
Proof.
  split.
  - intros r H Hok.
    destruct (request_not_ok_cases _ _ _ _ r H Hok)
      as [[e [He [K Hs]]] | [He Hs]]; eauto 8.
  - intros v Hv.
    destruct (fetch (baseUrl this ++ endpoint) (request_init this options))
      as [e | r] eqn:H.
    + rewrite (request_fetch_rejects _ _ _ _ _ H), request_catch_other in Hv.
      discriminate.
    + destruct (ok r) eqn:Hok.
      * exists r. repeat split; trivial.
        rewrite (request_ok _ _ _ _ _ H Hok) in Hv.
        destruct (json r) as [e | v']; [| congruence].
        rewrite request_catch_other in Hv. discriminate.
      * destruct (request_not_ok_cases _ _ _ _ r H Hok)
          as [[e [_ [_ Hs]]] | [_ Hs]]; rewrite Hs in Hv; discriminate.
Qed.

Lemma request_non_2xx_never_fulfils_witness :
  exists e,
    settled (request (responds unauthorized) test_client "/v1/credits" GET)
      = Rejected (ThrowRail e) /\
    ((handleError unauthorized = throw (ThrowRail e) /\
      kind e = kind_of_status (status unauthorized)) \/
     (handleError unauthorized = throw (ThrowOther cannot_convert) /\
      e = NetworkError
            "Network request failed: Cannot convert object to primitive value"
            cannot_convert)).
Proof.
  exact (proj1 (request_non_2xx_never_fulfils (responds unauthorized)
                  test_client "/v1/credits" GET) unauthorized eq_refl eq_refl).
Defined.

(** ** [generate], continued *)

Lemma blank_whitespace_only (s : string) : blank s = whitespace_only s.
Proof. apply prompt_test. Qed.

Lemma bind_ret {A B} (a : A) (k : A -> Promise B) : bind (ret a) k = k a.
Proof. unfold bind, ret. simpl. now destruct (k a). Qed.

Lemma bind_local {A B} (m : string) (k : A -> Promise B) :
  bind (local_ValidationError m) k = local_ValidationError m.
Proof. reflexivity. Qed.

(** A check that throws, followed by the rest of the method. *)
Lemma guard_bind {B} (b : bool) (m : string) (k : Promise B) :
  ((if b then local_ValidationError m else ret tt) ;; k) =
  if b then local_ValidationError m else k.
Proof. destruct b; [reflexivity | apply bind_ret]. Qed.

Lemma not_between_outside (x lo hi : Q) :
  not_between x lo hi = true <-> (x < lo \/ hi < x)%Q.
Proof. unfold not_between. now rewrite orb_true_iff, !Qltb_lt. Qed.

Lemma not_between_inside (x lo hi : Q) :
  not_between x lo hi = false <-> (lo <= x /\ x <= hi)%Q.
Proof.
  rewrite <- not_true_iff_false, not_between_outside. split.
  - intros H. split; apply Qnot_lt_le; tauto.
  - intros [H1 H2] [H | H]; [now apply (Qlt_not_le _ _ H) |
                             now apply (Qlt_not_le _ _ H)].
Qed.

(** X7.  The checks of [generate] are made in a fixed order and the first
    that fails names the error: the prompt, then the target score, then the
    iteration bound, then the temperature. *)
Theorem generate_first_failure
  (fetch : string -> RequestInit -> FetchResult) (client : RailScore)
  (prompt : string) (options : option GenerationOptions.t) :
  let targetScore := optional options GenerationOptions.targetScore in
  let maxIterations := optional options GenerationOptions.maxIterations in
  let temperature := optional options GenerationOptions.temperature in
  (whitespace_only prompt = true ->
   generate fetch client prompt options =
   local_ValidationError "Prompt cannot be empty") /\
  (whitespace_only prompt = false ->
   outside targetScore 0 10 ->
   generate fetch client prompt options =
   local_ValidationError "Target score must be between 0 and 10") /\
  (whitespace_only prompt = false ->
   ~ outside targetScore 0 10 ->
   outside maxIterations 1 10 ->
   generate fetch client prompt options =
   local_ValidationError "Max iterations must be between 1 and 10") /\
  (whitespace_only prompt = false ->
   ~ outside targetScore 0 10 ->
   ~ outside maxIterations 1 10 ->
   outside temperature 0 2 ->
   generate fetch client prompt options =
   local_ValidationError "Temperature must be between 0 and 2").
Proof.
  intros ts mi te. unfold generate. fold ts mi te.
  rewrite prompt_test, !guard_bind.
  repeat split.
  - intros W. now rewrite W.
  - intros W T. apply out_of_range_outside in T. now rewrite W, T.
  - intros W T I. apply out_of_range_inside in T.
    apply out_of_range_outside in I. now rewrite W, T, I.
  - intros W T I P. apply out_of_range_inside in T.
    apply out_of_range_inside in I. apply out_of_range_outside in P.
    now rewrite W, T, I, P.
Qed.

Lemma generate_first_failure_witness :
  generate (responds ok_health) test_client "Write a privacy policy"
    (Some too_hot_options) =
  local_ValidationError "Temperature must be between 0 and 2".
Proof.
  refine (proj2 (proj2 (proj2
            (generate_first_failure (responds ok_health) test_client
               "Write a privacy policy" (Some too_hot_options))))
            eq_refl _ _ _).
  - intros [q [E _]]. discriminate E.
  - intros [q [E _]]. discriminate E.
  - exists (5 # 2)%Q. split; [reflexivity |]. right. reflexivity.
Defined.

(** ** The account methods *)

Lemma all_chars_app (p : ascii -> bool) (s1 s2 : string) :
  all_chars p (s1 ++ s2) = all_chars p s1 && all_chars p s2.
Proof.
  induction s1 as [| c rest IH]; simpl; [reflexivity |].
  now rewrite IH, andb_assoc.
Qed.

Lemma all_chars_weaken (p q : ascii -> bool) (s : string) :
  (forall c, p c = true -> q c = true) ->
  all_chars p s = true -> all_chars q s = true.
Proof.
  intros Hpq. induction s as [| c rest IH]; simpl; [reflexivity |].
  rewrite !andb_true_iff. intros [Hc Hr]. auto.
Qed.

Lemma is_unreserved_not_space (c : ascii) :
  is_unreserved c = true -> (N_of_ascii c =? 32)%N = false.
Proof.
  unfold is_unreserved. destruct (N.eqb_spec (N_of_ascii c) 32) as [E | N];
    [| reflexivity].
  rewrite E. discriminate.
Qed.

Lemma urlencode_unreserved (s : string) :
  all_chars is_unreserved s = true -> urlencode s = s.
Proof.
  induction s as [| c rest IH]; simpl; [reflexivity |].
  rewrite andb_true_iff. intros [Hc Hr]. unfold urlencode_char.
  rewrite (is_unreserved_not_space _ Hc), Hc. simpl. now rewrite IH.
Qed.

Lemma digits_unreserved (d : Decimal.uint) :
  all_chars is_unreserved (NilEmpty.string_of_uint d) = true.
Proof. induction d; simpl; auto. Qed.

Lemma decimal_unreserved (z : Z) : all_chars is_unreserved (decimal z) = true.
Proof.
  unfold decimal, NilZero.string_of_int, NilZero.string_of_uint.
  destruct (Z.to_int z) as [d | d]; [| simpl];
    destruct d; try reflexivity; apply digits_unreserved.
Qed.

Lemma hex_digit_unreserved (n : N) : is_unreserved (hex_digit n) = true.
Proof.
  unfold hex_digit. generalize (N.to_nat n). intros m.
  do 16 (destruct m as [| m]; [reflexivity |]). reflexivity.
Qed.

Lemma percent_encoded (byte : N) : all_chars is_encoded (percent byte) = true.
Proof.
  unfold percent. simpl. unfold is_encoded.
  now rewrite !hex_digit_unreserved.
Qed.

Lemma urlencode_encoded (s : string) :
  all_chars is_encoded (urlencode s) = true.
Proof.
  induction s as [| c rest IH]; simpl; [reflexivity |].
  rewrite all_chars_app, IH, andb_true_r. unfold urlencode_char.
  destruct (N_of_ascii c =? 32)%N; [reflexivity |].
  destruct (is_unreserved c) eqn:U.
  - simpl. unfold is_encoded. now rewrite U.
  - destruct (N_of_ascii c <? 128)%N; [apply percent_encoded |].
    now rewrite all_chars_app, !percent_encoded.
Qed.

(** X8.  Without a start date, and for a limit that is a safe integer,
    [getUsage] asks for [/v1/usage?limit=<limit>], the limit being 50 when
    it is left out; an empty start date is no start date. *)
Theorem getUsage_without_fromDate
  (fetch : string -> RequestInit -> FetchResult) (this : RailScore)
  (limit : option Z) :
  Z.abs (default 50 limit) <= MAX_SAFE_INTEGER ->
  getUsage fetch this limit None =
    request fetch this ("/v1/usage?limit=" ++ decimal (default 50 limit)) GET
  /\ getUsage fetch this limit (Some "") = getUsage fetch this limit None.
Proof.
  intros _. unfold getUsage. simpl.
  now rewrite (urlencode_unreserved _ (decimal_unreserved _)); destruct limit.
Qed.

Lemma getUsage_without_fromDate_witness :
  getUsage (responds ok_health) test_client None None =
  request (responds ok_health) test_client "/v1/usage?limit=50" GET.
Proof.
  refine (proj1 (getUsage_without_fromDate (responds ok_health) test_client
                   None _)).
  vm_compute. discriminate.
Defined.

(** X9.  With a start date made of letters, digits, [*], [-], [.] and [_]
    (an ISO date is), and for a limit that is a safe integer, [getUsage]
    asks for [/v1/usage?limit=<limit>&from_date=<date>], the date as it
    is. *)
Theorem getUsage_with_plain_fromDate
  (fetch : string -> RequestInit -> FetchResult) (this : RailScore)
  (limit : option Z) (fromDate : string) :
  Z.abs (default 50 limit) <= MAX_SAFE_INTEGER ->
  fromDate <> "" ->
  all_chars is_unreserved fromDate = true ->
  getUsage fetch this limit (Some fromDate) =
  request fetch this
    ("/v1/usage?limit=" ++ decimal (default 50 limit)
       ++ "&from_date=" ++ fromDate) GET.
Proof.
  intros _ N U. unfold getUsage. apply String.eqb_neq in N. rewrite N.
  simpl. rewrite (urlencode_unreserved _ (decimal_unreserved _)).
  rewrite (urlencode_unreserved _ U). now destruct limit.
Qed.

Lemma getUsage_with_plain_fromDate_witness :
  getUsage (responds ok_health) test_client (Some 100) (Some "2024-01-01") =
  request (responds ok_health) test_client
    "/v1/usage?limit=100&from_date=2024-01-01" GET.
Proof.
  refine (getUsage_with_plain_fromDate (responds ok_health) test_client
            (Some 100) "2024-01-01" _ _ eq_refl).
  - vm_compute. discriminate.
  - discriminate.
Defined.

(** X10.  Whatever the start date, it reaches the query string encoded
    (the limit being a safe integer): what follows [from_date=] is made of
    unreserved characters, [+] and [%] only, so that a date cannot add a
    parameter ([&], [=]) or cut the query short ([#]). *)
Theorem getUsage_encodes_fromDate
  (fetch : string -> RequestInit -> FetchResult) (this : RailScore)
  (limit : option Z) (fromDate : string) :
  Z.abs (default 50 limit) <= MAX_SAFE_INTEGER ->
  fromDate <> "" ->
  exists encoded,
    all_chars is_encoded encoded = true /\
    getUsage fetch this limit (Some fromDate) =
    request fetch this
      ("/v1/usage?limit=" ++ decimal (default 50 limit)
         ++ "&from_date=" ++ encoded) GET.
Proof.
  intros _ N. exists (urlencode fromDate).
  split; [apply urlencode_encoded |].
  unfold getUsage. apply String.eqb_neq in N. rewrite N. simpl.
  rewrite (urlencode_unreserved _ (decimal_unreserved _)).
  now destruct limit.
Qed.

Lemma getUsage_encodes_fromDate_witness :
  exists encoded,
    all_chars is_encoded encoded = true /\
    getUsage (responds ok_health) test_client None (Some "a&limit=1 #") =
    request (responds ok_health) test_client
      ("/v1/usage?limit=" ++ decimal (default 50 None)
         ++ "&from_date=" ++ encoded) GET.
Proof.
  refine (getUsage_encodes_fromDate (responds ok_health) test_client None
            "a&limit=1 #" _ _).
  - vm_compute. discriminate.
  - discriminate.
Defined.

Example getUsage_injection :
  getUsage (responds ok_health) test_client None (Some "a&limit=1 #") =
  request (responds ok_health) test_client
    "/v1/usage?limit=50&from_date=a%26limit%3D1+%23" GET.
Proof. reflexivity. Qed.

(** ** The methods of [Generation] *)

Lemma for_of_guard {A} (p : A -> bool) (msg : A -> string) (l : list A) :
  for_of l (fun x => if p x then local_ValidationError (msg x) else ret tt) =
  match find p l with
  | Some x => local_ValidationError (msg x)
  | None => ret tt
  end.
Proof.
  induction l as [| x rest IH]; simpl; [reflexivity |].
  rewrite guard_bind. now destruct (p x).
Qed.

Lemma find_blank_none (l : list string) :
  (forall s, In s l -> whitespace_only s = false) -> find blank l = None.
Proof.
  intros H. induction l as [| x rest IH]; simpl; [reflexivity |].
  rewrite blank_whitespace_only, (H x) by now left.
  apply IH. intros s Hs. apply H. now right.
Qed.

Lemma find_blank_some (l : list string) :
  (exists s, In s l /\ whitespace_only s = true) ->
  exists s, find blank l = Some s.
Proof.
  intros [s [Hs W]]. destruct (find blank l) as [x |] eqn:F; [eauto |].
  apply (find_none _ _ F) in Hs. rewrite blank_whitespace_only in Hs.
  congruence.
Qed.

(** X11.  [improve] refuses a blank content, then a target score outside
    [0, 10]; otherwise it is the request to /v1/generation/improve, with
    the target score 8 when none is given. *)
Theorem improve_validation (client_request : ClientRequest)
  (content : string) (targetDimensions : option (list Dimension))
  (targetScore : option Q) :
  let score := default 8%Q targetScore in
  (whitespace_only content = true ->
   Generation.improve client_request content targetDimensions targetScore
   = local_ValidationError "Content cannot be empty") /\
  (whitespace_only content = false ->
   (score < 0 \/ 10 < score)%Q ->
   Generation.improve client_request content targetDimensions targetScore
   = local_ValidationError "Target score must be between 0 and 10") /\
  (whitespace_only content = false ->
   (0 <= score /\ score <= 10)%Q ->
   Generation.improve client_request content targetDimensions targetScore
   = client_request "/v1/generation/improve"
       (POST (ImproveBody content targetDimensions score))).
Proof.
  intros score. unfold Generation.improve. fold score.
  rewrite blank_whitespace_only, !guard_bind. repeat split.
  - intros W. now rewrite W.
  - intros W S. apply not_between_outside in S. now rewrite W, S.
  - intros W S. apply not_between_inside in S. now rewrite W, S.
Qed.

Lemma improve_validation_witness :
  Generation.improve (answers (fulfilled_with Null))
    "Our AI collects user data." None None
  = answers (fulfilled_with Null) "/v1/generation/improve"
      (POST (ImproveBody "Our AI collects user data." None 8%Q)).
Proof.
  refine (proj2 (proj2 (improve_validation (answers (fulfilled_with Null))
                          "Our AI collects user data." None None))
            eq_refl _).
  split; discriminate.
Defined.

(** X12.  [rewrite] refuses a blank content, then an empty list of issues,
    then a list with a blank issue; otherwise it is the request to
    /v1/generation/rewrite, with the tone preserved unless the caller says
    otherwise. *)
Theorem rewrite_validation (client_request : ClientRequest)
  (content : string) (issues : list string) (preserveTone : option bool) :
  (whitespace_only content = true ->
   Generation.rewrite client_request content issues preserveTone
   = local_ValidationError "Content cannot be empty") /\
  (whitespace_only content = false ->
   issues = [] ->
   Generation.rewrite client_request content issues preserveTone
   = local_ValidationError "At least one issue is required") /\
  (whitespace_only content = false ->
   (exists issue, In issue issues /\ whitespace_only issue = true) ->
   Generation.rewrite client_request content issues preserveTone
   = local_ValidationError "Issues cannot contain empty strings") /\
  (whitespace_only content = false ->
   issues <> [] ->
   (forall issue, In issue issues -> whitespace_only issue = false) ->
   Generation.rewrite client_request content issues preserveTone
   = client_request "/v1/generation/rewrite"
       (POST (RewriteBody content issues (default true preserveTone)))).
Proof.
  unfold Generation.rewrite.
  rewrite blank_whitespace_only, !guard_bind.
  rewrite (for_of_guard blank (fun _ => "Issues cannot contain empty strings")).
  repeat split.
  - intros W. now rewrite W.
  - intros W E. now rewrite W, E.
  - intros W B. rewrite W.
    destruct issues as [| i rest]; [now destruct B as [s [[] _]] |].
    destruct (find_blank_some _ B) as [s F]. now rewrite F.
  - intros W N A. rewrite W.
    destruct issues as [| i rest]; [congruence |].
    now rewrite (find_blank_none _ A), bind_ret.
Qed.

Lemma rewrite_validation_witness :
  Generation.rewrite (answers (fulfilled_with Null))
    "Our AI collects user data." ["vague"; "  "] None
  = local_ValidationError "Issues cannot contain empty strings".
Proof.
  refine (proj1 (proj2 (proj2 (rewrite_validation
            (answers (fulfilled_with Null)) "Our AI collects user data."
            ["vague"; "  "] None))) eq_refl _).
  exists "  ". split; [right; left |]; reflexivity.
Defined.

Lemma find_empty_none {A} (l : list (list A)) :
  (forall x, In x l -> x <> []) ->
  find (fun x => Nat.eqb (List.length x) 0) l = None.
Proof.
  intros H. induction l as [| x rest IH]; simpl; [reflexivity |].
  destruct x as [| a x]; [now elim (H []); [left |] |].
  apply IH. intros y Hy. apply H. now right.
Qed.

(** [variations] with arguments that pass its checks. *)
Lemma variations_checked (client_request : ClientRequest)
  (prompt : string) (dimensionSets : list (list Dimension))
  (count : option Q) :
  whitespace_only prompt = false ->
  dimensionSets <> [] ->
  (1 <= default 1 count /\ default 1 count <= 5)%Q ->
  ~ In [] dimensionSets ->
  Generation.variations client_request prompt dimensionSets count
  = (response <- client_request "/v1/generation/variations"
                   (POST (VariationsBody prompt dimensionSets
                            (default 1%Q count))) ;;
     member response "variations").
Proof.
  intros W N C I. unfold Generation.variations.
  rewrite blank_whitespace_only, !guard_bind.
  rewrite (for_of_guard (fun x : list Dimension => Nat.eqb (List.length x) 0)
             (fun _ => "Each dimension set must contain at least one dimension")).
  rewrite W. apply not_between_inside in C.
  destruct dimensionSets as [| d rest]; [congruence |]. simpl length.
  simpl Nat.eqb. rewrite C, find_empty_none, bind_ret; [reflexivity |].
  intros x Hx E. subst x. now apply I.
Qed.

(** X13.  [variations] refuses, in this order, a blank prompt, an empty
    list of dimension sets, a count outside [1, 5] (the count is 1 when it
    is left out) and an empty dimension set; otherwise it posts to
    /v1/generation/variations and reads the member [variations] of the
    answer. *)
Theorem variations_validation (client_request : ClientRequest)
  (prompt : string) (dimensionSets : list (list Dimension))
  (count : option Q) :
  let n := default 1%Q count in
  (whitespace_only prompt = true ->
   Generation.variations client_request prompt dimensionSets count
   = local_ValidationError "Prompt cannot be empty") /\
  (whitespace_only prompt = false ->
   dimensionSets = [] ->
   Generation.variations client_request prompt dimensionSets count
   = local_ValidationError "At least one dimension set is required") /\
  (whitespace_only prompt = false ->
   dimensionSets <> [] ->
   (n < 1 \/ 5 < n)%Q ->
   Generation.variations client_request prompt dimensionSets count
   = local_ValidationError "Count must be between 1 and 5") /\
  (whitespace_only prompt = false ->
   (1 <= n /\ n <= 5)%Q ->
   In [] dimensionSets ->
   Generation.variations client_request prompt dimensionSets count
   = local_ValidationError
       "Each dimension set must contain at least one dimension") /\
  (whitespace_only prompt = false ->
   dimensionSets <> [] ->
   (1 <= n /\ n <= 5)%Q ->
   ~ In [] dimensionSets ->
   Generation.variations client_request prompt dimensionSets count
   = (response <- client_request "/v1/generation/variations"
                    (POST (VariationsBody prompt dimensionSets n)) ;;
      member response "variations")).
Proof.
  intros n.
  split; [| split; [| split; [| split]]];
    [| | | | now apply variations_checked];
    unfold Generation.variations; fold n;
    rewrite blank_whitespace_only, !guard_bind;
    rewrite (for_of_guard
               (fun x : list Dimension => Nat.eqb (List.length x) 0)
               (fun _ => "Each dimension set must contain at least one dimension")).
  - intros W. now rewrite W.
  - intros W E. now rewrite W, E.
  - intros W N C. rewrite W. apply not_between_outside in C.
    destruct dimensionSets; [congruence |]. now rewrite C.
  - intros W C I. rewrite W. apply not_between_inside in C.
    destruct dimensionSets as [| d rest]; [now elim I |]. simpl length.
    simpl Nat.eqb. rewrite C.
    destruct (find (fun x : list Dimension => Nat.eqb (List.length x) 0)
                (d :: rest)) as [x |] eqn:F; [reflexivity |].
    apply (find_none _ _ F) in I. discriminate I.
Qed.

Lemma variations_validation_witness :
  Generation.variations (answers (fulfilled_with Null))
    "Write a privacy policy" [[privacy]; []] None
  = local_ValidationError
      "Each dimension set must contain at least one dimension".
Proof.
  refine (proj1 (proj2 (proj2 (proj2 (variations_validation
            (answers (fulfilled_with Null)) "Write a privacy policy"
            [[privacy]; []] None)))) eq_refl _ _).
  - split; discriminate.
  - right. left. reflexivity.
Defined.

(** Reading the member [k] of the answer of a request: a rejection passes
    through, an answer [null] or [undefined] is a TypeError, any other
    answer gives its member. *)
Lemma member_of_answer (p : Promise value) (k : string) :
  calls (response <- p ;; member response k) = calls p /\
  match settled p with
  | Rejected t => settled (response <- p ;; member response k) = Rejected t
  | Fulfilled Undefined | Fulfilled Null =>
      exists e,
        settled (response <- p ;; member response k)
          = Rejected (ThrowOther e) /\
        name e = "TypeError"
  | Fulfilled v =>
      settled (response <- p ;; member response k) = Fulfilled (get v k)
  end.
Proof.
  unfold bind. destruct (settled p) as [v | t]; simpl; [| auto].
  destruct v; simpl; rewrite ?app_nil_r; eauto.
Qed.

(** X14.  With arguments that pass its checks, [variations] makes the
    calls of its one request and no other.  When the request is rejected,
    so is [variations], with the same error; when it is answered with
    [null], [variations] is rejected with a TypeError, which is not a
    [RailScoreError]; when it is answered with an object, [variations]
    gives the member [variations] of it, [undefined] if there is none. *)
Theorem variations_returns_member (client_request : ClientRequest)
  (prompt : string) (dimensionSets : list (list Dimension))
  (count : option Q) :
  whitespace_only prompt = false ->
  dimensionSets <> [] ->
  (1 <= default 1 count /\ default 1 count <= 5)%Q ->
  ~ In [] dimensionSets ->
  let sent := client_request "/v1/generation/variations"
                (POST (VariationsBody prompt dimensionSets
                         (default 1%Q count))) in
  let result := Generation.variations client_request prompt dimensionSets
                  count in
  calls result = calls sent /\
  (forall t, settled sent = Rejected t -> settled result = Rejected t) /\
  (settled sent = Fulfilled Null ->
   exists e, settled result = Rejected (ThrowOther e)
             /\ name e = "TypeError") /\
  (forall props, settled sent = Fulfilled (Obj props) ->
                 settled result = Fulfilled (lookup "variations" props)).
Proof.
  intros W N C I sent result.
  assert (E : result = (response <- sent ;; member response "variations"))
    by now apply variations_checked.
  rewrite E. destruct (member_of_answer sent "variations") as [Hc Hs].
  split; [exact Hc |]. repeat split.
  - intros t Ht. now rewrite Ht in Hs.
  - intros Hn. now rewrite Hn in Hs.
  - intros props Hp. now rewrite Hp in Hs.
Qed.

Lemma variations_returns_member_witness :
  settled (Generation.variations
             (answers (fulfilled_with (Obj [("variations", Arr [])])))
             "Write a privacy policy" [[privacy]] None)
  = Fulfilled (Arr []).
Proof.
  refine (proj2 (proj2 (proj2 (variations_returns_member
            (answers (fulfilled_with (Obj [("variations", Arr [])])))
            "Write a privacy policy" [[privacy]] None eq_refl _ _ _)))
            _ eq_refl).
  - discriminate.
  - split; discriminate.
  - intros [H | []]. discriminate H.
Defined.

(** ** The methods of [Evaluation] *)

(** The item [normalize] makes of the element at position [n]. *)
Lemma normalize_nth (items : list (string + BatchItem.t)) (index n : nat) :
  nth_error (Evaluation.normalize index items) n =
  option_map
    (fun item =>
       match item with
       | inl content =>
           BatchItem.mk content
             (Some ("item-" ++ decimal (Z.of_nat (index + n))))
       | inr item => item
       end)
    (nth_error items n).
Proof.
  revert index n. induction items as [| item rest IH]; intros index n.
  - now destruct n.
  - destruct n as [| n]; simpl.
    + now rewrite Nat.add_0_r.
    + now rewrite IH, Nat.add_succ_r.
Qed.

Lemma normalize_length (items : list (string + BatchItem.t)) (index : nat) :
  List.length (Evaluation.normalize index items) = List.length items.
Proof.
  revert index. induction items as [| item rest IH]; intros index; simpl;
    [reflexivity | now rewrite IH].
Qed.

(** X15.  The items [batch] sends are the items it was given, in the same
    number and order: an item object is sent as it is, a string at position
    [n] is sent as the item with that content and the id [item-n]. *)
Theorem batch_normalizes_items (items : list (string + BatchItem.t)) :
  List.length (Evaluation.normalize 0 items) = List.length items /\
  forall n,
    nth_error (Evaluation.normalize 0 items) n =
    match nth_error items n with
    | Some (inl content) =>
        Some (BatchItem.mk content
                (Some ("item-" ++ decimal (Z.of_nat n))))
    | Some (inr item) => Some item
    | None => None
    end.
Proof.
  split; [apply normalize_length |].
  intros n. rewrite normalize_nth. simpl.
  now destruct (nth_error items n) as [[content | item] |].
Qed.

Lemma find_app {A} (p : A -> bool) (l1 l2 : list A) :
  find p (l1 ++ l2) =
  match find p l1 with
  | Some x => Some x
  | None => find p l2
  end.
Proof.
  induction l1 as [| x rest IH]; simpl; [reflexivity |].
  now destruct (p x).
Qed.

Lemma normalize_app (l1 l2 : list (string + BatchItem.t)) (index : nat) :
  Evaluation.normalize index (l1 ++ l2) =
  (Evaluation.normalize index l1
     ++ Evaluation.normalize (index + List.length l1) l2)%list.
Proof.
  revert index. induction l1 as [| x rest IH]; intros index; simpl.
  - now rewrite Nat.add_0_r.
  - now rewrite IH, Nat.add_succ_r.
Qed.

Lemma find_normalize_none (l : list (string + BatchItem.t)) (index : nat) :
  (forall x, In x l -> whitespace_only (item_content x) = false) ->
  find (fun item => blank (BatchItem.content item))
       (Evaluation.normalize index l) = None.
Proof.
  revert index. induction l as [| x rest IH]; intros index H;
    [reflexivity |].
  assert (Hx : whitespace_only (item_content x) = false)
    by (apply H; now left).
  assert (Hr : forall y, In y rest -> whitespace_only (item_content y) = false)
    by (intros y Hy; apply H; now right).
  destruct x as [content | item]; simpl in *;
    rewrite blank_whitespace_only, Hx; now apply IH.
Qed.

(** X16.  When some item has a blank content, [batch] is rejected with an
    error that names the first such item: by its id if it is an item
    object with a non-empty id, as 'unknown' if it is one without, and as
    [item-n] if it is a string, [n] being its position. *)
Theorem batch_names_first_empty_item (client_request : ClientRequest)
  (before after : list (string + BatchItem.t)) (item : string + BatchItem.t)
  (dimensions : option (list Dimension)) (tier : option Tier) :
  (forall x, In x before -> whitespace_only (item_content x) = false) ->
  whitespace_only (item_content item) = true ->
  Evaluation.batch client_request (before ++ item :: after) dimensions tier
  = local_ValidationError
      ("Item "
         ++ match item with
            | inl _ => "item-" ++ decimal (Z.of_nat (List.length before))
            | inr item => string_or (BatchItem.id item) "unknown"
            end
         ++ " has empty content").
Proof.
  intros Hb Hi. unfold Evaluation.batch.
  rewrite guard_bind.
  replace (Nat.eqb (List.length (before ++ item :: after)) 0) with false
    by now destruct before.
  rewrite (for_of_guard (fun item => blank (BatchItem.content item))
             (fun item => "Item " ++ string_or (BatchItem.id item) "unknown"
                            ++ " has empty content")).
  rewrite normalize_app, find_app, (find_normalize_none _ _ Hb).
  destruct item as [content | item]; simpl in *;
    rewrite blank_whitespace_only, Hi; reflexivity.
Qed.

Lemma batch_names_first_empty_item_witness :
  Evaluation.batch (answers (fulfilled_with Null))
    [inl "We collect user data."; inl "  "; inl ""] None None
  = local_ValidationError "Item item-1 has empty content".
Proof.
  refine (batch_names_first_empty_item (answers (fulfilled_with Null))
            [inl "We collect user data."] [inl ""] (inl "  ") None None
            _ eq_refl).
  intros x [<- | []]. reflexivity.
Defined.

(** X17.  [batch] refuses an empty list of items; when every item has a
    content that is not blank, it is the request to /v1/evaluation/batch
    with the normalized items and the tier 'balanced' unless another is
    given. *)
Theorem batch_validation (client_request : ClientRequest)
  (items : list (string + BatchItem.t))
  (dimensions : option (list Dimension)) (tier : option Tier) :
  (items = [] ->
   Evaluation.batch client_request items dimensions tier
   = local_ValidationError "Items array cannot be empty") /\
  (items <> [] ->
   (forall x, In x items -> whitespace_only (item_content x) = false) ->
   Evaluation.batch client_request items dimensions tier
   = client_request "/v1/evaluation/batch"
       (POST (BatchBody (Evaluation.normalize 0 items) dimensions
                (default balanced tier)))).
Proof.
  unfold Evaluation.batch. rewrite guard_bind. split.
  - intros E. now rewrite E.
  - intros N H. destruct items as [| x rest]; [congruence |].
    simpl length. simpl Nat.eqb.
    rewrite (for_of_guard (fun item => blank (BatchItem.content item))
               (fun item => "Item " ++ string_or (BatchItem.id item) "unknown"
                              ++ " has empty content")).
    now rewrite (find_normalize_none _ _ H), bind_ret.
Qed.

Lemma batch_validation_witness :
  Evaluation.batch (answers (fulfilled_with Null))
    [inl "We collect user data."] None None
  = answers (fulfilled_with Null) "/v1/evaluation/batch"
      (POST (BatchBody
               [BatchItem.mk "We collect user data." (Some "item-0")]
               None balanced)).
Proof.
  refine (proj2 (batch_validation (answers (fulfilled_with Null))
                   [inl "We collect user data."] None None) _ _).
  - discriminate.
  - intros x [<- | []]. reflexivity.
Defined.

Lemma for_index_guard {A} (p : A -> bool) (msg : nat -> string)
  (i : nat) (l : list A) :
  for_index i l
    (fun i x => if p x then local_ValidationError (msg i) else ret tt) =
  match first_index p l with
  | Some n => local_ValidationError (msg (i + n)%nat)
  | None => ret tt
  end.
Proof.
  revert i. induction l as [| x rest IH]; intros i; simpl; [reflexivity |].
  rewrite guard_bind. destruct (p x); [now rewrite Nat.add_0_r |].
  rewrite IH. destruct (first_index p rest); [| reflexivity].
  now rewrite Nat.add_succ_r.
Qed.

Lemma first_index_chunks (before after : list ContextChunk.t)
  (chunk : ContextChunk.t) :
  (forall c, In c before ->
             whitespace_only (ContextChunk.content c) = false) ->
  whitespace_only (ContextChunk.content chunk) = true ->
  first_index (fun c => blank (ContextChunk.content c))
              (before ++ chunk :: after)
  = Some (List.length before).
Proof.
  intros Hb Hc. induction before as [| c rest IH]; simpl.
  - now rewrite blank_whitespace_only, Hc.
  - rewrite blank_whitespace_only, (Hb c) by now left.
    rewrite IH; [reflexivity |]. intros c' Hc'. apply Hb. now right.
Qed.

Lemma first_index_chunks_none (chunks : list ContextChunk.t) :
  (forall c, In c chunks ->
             whitespace_only (ContextChunk.content c) = false) ->
  first_index (fun c => blank (ContextChunk.content c)) chunks = None.
Proof.
  intros H. induction chunks as [| c rest IH]; simpl; [reflexivity |].
  rewrite blank_whitespace_only, (H c) by now left.
  rewrite IH; [reflexivity |]. intros c' Hc'. apply H. now right.
Qed.

(** X18.  With a query and a response that are not blank, a context chunk
    with a blank content makes [ragEvaluate] reject with an error that
    gives the position of the first such chunk, counted from 0. *)
Theorem ragEvaluate_names_first_empty_chunk (client_request : ClientRequest)
  (query response : string) (before after : list ContextChunk.t)
  (chunk : ContextChunk.t) :
  whitespace_only query = false ->
  whitespace_only response = false ->
  (forall c, In c before ->
             whitespace_only (ContextChunk.content c) = false) ->
  whitespace_only (ContextChunk.content chunk) = true ->
  Evaluation.ragEvaluate client_request query response
    (before ++ chunk :: after)
  = local_ValidationError
      ("Context chunk " ++ decimal (Z.of_nat (List.length before))
         ++ " has empty content").
Proof.
  intros Wq Wr Hb Hc. unfold Evaluation.ragEvaluate.
  rewrite !blank_whitespace_only, !guard_bind, Wq, Wr.
  replace (Nat.eqb (List.length (before ++ chunk :: after)) 0) with false
    by now destruct before.
  rewrite (for_index_guard (fun c => blank (ContextChunk.content c))
             (fun i => "Context chunk " ++ decimal (Z.of_nat i)
                         ++ " has empty content")).
  now rewrite (first_index_chunks _ _ _ Hb Hc).
Qed.

Lemma ragEvaluate_names_first_empty_chunk_witness :
  Evaluation.ragEvaluate (answers (fulfilled_with Null))
    "What is GDPR?" "GDPR is a regulation."
    [ContextChunk.mk "GDPR stands for ..." None None;
     ContextChunk.mk " " (Some "gdpr.pdf") None]
  = local_ValidationError "Context chunk 1 has empty content".
Proof.
  refine (ragEvaluate_names_first_empty_chunk (answers (fulfilled_with Null))
            "What is GDPR?" "GDPR is a regulation."
            [ContextChunk.mk "GDPR stands for ..." None None] []
            (ContextChunk.mk " " (Some "gdpr.pdf") None)
            eq_refl eq_refl _ eq_refl).
  intros c [<- | []]. reflexivity.
Defined.

(** X19.  [ragEvaluate] refuses, in this order, a blank query, a blank
    response and an empty list of context chunks; when none of the chunks
    has a blank content either, it is the request to /v1/evaluation/rag
    with the query, the response and the chunks as given. *)
Theorem ragEvaluate_validation (client_request : ClientRequest)
  (query response : string) (contextChunks : list ContextChunk.t) :
  (whitespace_only query = true ->
   Evaluation.ragEvaluate client_request query response contextChunks
   = local_ValidationError "Query cannot be empty") /\
  (whitespace_only query = false ->
   whitespace_only response = true ->
   Evaluation.ragEvaluate client_request query response contextChunks
   = local_ValidationError "Response cannot be empty") /\
  (whitespace_only query = false ->
   whitespace_only response = false ->
   contextChunks = [] ->
   Evaluation.ragEvaluate client_request query response contextChunks
   = local_ValidationError "At least one context chunk is required") /\
  (whitespace_only query = false ->
   whitespace_only response = false ->
   contextChunks <> [] ->
   (forall c, In c contextChunks ->
              whitespace_only (ContextChunk.content c) = false) ->
   Evaluation.ragEvaluate client_request query response contextChunks
   = client_request "/v1/evaluation/rag"
       (POST (RagBody query response contextChunks))).
Proof.
  unfold Evaluation.ragEvaluate.
  rewrite !blank_whitespace_only, !guard_bind.
  rewrite (for_index_guard (fun c => blank (ContextChunk.content c))
             (fun i => "Context chunk " ++ decimal (Z.of_nat i)
                         ++ " has empty content")).
  repeat split.
  - intros Wq. now rewrite Wq.
  - intros Wq Wr. now rewrite Wq, Wr.
  - intros Wq Wr E. now rewrite Wq, Wr, E.
  - intros Wq Wr N H. rewrite Wq, Wr.
    destruct contextChunks as [| c rest]; [congruence |].
    simpl length. simpl Nat.eqb.
    now rewrite (first_index_chunks_none _ H), bind_ret.
Qed.

Lemma ragEvaluate_validation_witness :
  Evaluation.ragEvaluate (answers (fulfilled_with Null))
    "What is GDPR?" "  " []
  = local_ValidationError "Response cannot be empty".
Proof.
  exact (proj1 (proj2 (ragEvaluate_validation (answers (fulfilled_with Null))
                         "What is GDPR?" "  " [])) eq_refl eq_refl).
Defined.

(** X20.  With a content that is not blank and a dimension, [dimension]
    makes the calls of its one request; a rejection of the request is its
    own, an answer [null] is a TypeError and not a [RailScoreError], and an
    answer that is an object gives its member [score], [undefined] if
    there is none. *)
Theorem dimension_returns_score (client_request : ClientRequest)
  (content : string) (dimension : Dimension) :
  whitespace_only content = false ->
  let sent := client_request "/v1/evaluation/dimension"
                (POST (DimensionBody content dimension)) in
  let result := Evaluation.dimension client_request content
                  (Some dimension) in
  calls result = calls sent /\
  (forall t, settled sent = Rejected t -> settled result = Rejected t) /\
  (settled sent = Fulfilled Null ->
   exists e, settled result = Rejected (ThrowOther e)
             /\ name e = "TypeError") /\
  (forall props, settled sent = Fulfilled (Obj props) ->
                 settled result = Fulfilled (lookup "score" props)).
Proof.
  intros W sent result.
  assert (E : result = (response <- sent ;; member response "score")).
  { unfold result, Evaluation.dimension.
    now rewrite blank_whitespace_only, guard_bind, W. }
  rewrite E. destruct (member_of_answer sent "score") as [Hc Hs].
  split; [exact Hc |]. repeat split.
  - intros t Ht. now rewrite Ht in Hs.
  - intros Hn. now rewrite Hn in Hs.
  - intros props Hp. now rewrite Hp in Hs.
Qed.

Lemma dimension_returns_score_witness :
  settled (Evaluation.dimension (answers (fulfilled_with (Obj [])))
             "We collect user data." (Some privacy))
  = Fulfilled Undefined.
Proof.
  exact (proj2 (proj2 (proj2 (dimension_returns_score
           (answers (fulfilled_with (Obj []))) "We collect user data."
           privacy eq_refl))) [] eq_refl).
Defined.

(** ** The methods of [Compliance] *)

(** X21.  [checkMultiple] refuses a blank content, then an empty list of
    frameworks, then a list of more than 10; with 1 to 10 frameworks it
    posts to /v1/compliance/check-multiple and reads the member [results]
    of the answer. *)
Theorem checkMultiple_validation (client_request : ClientRequest)
  (content : string) (frameworks : list ComplianceFramework) :
  (whitespace_only content = true ->
   Compliance.checkMultiple client_request content frameworks
   = local_ValidationError "Content cannot be empty") /\
  (whitespace_only content = false ->
   frameworks = [] ->
   Compliance.checkMultiple client_request content frameworks
   = local_ValidationError "At least one framework is required") /\
  (whitespace_only content = false ->
   (10 < List.length frameworks)%nat ->
   Compliance.checkMultiple client_request content frameworks
   = local_ValidationError "Maximum 10 frameworks allowed per request") /\
  (whitespace_only content = false ->
   (1 <= List.length frameworks <= 10)%nat ->
   Compliance.checkMultiple client_request content frameworks
   = (response <- client_request "/v1/compliance/check-multiple"
                    (POST (CheckMultipleBody content frameworks)) ;;
      member response "results")).
Proof.
  unfold Compliance.checkMultiple.
  rewrite blank_whitespace_only, !guard_bind. repeat split.
  - intros W. now rewrite W.
  - intros W E. now rewrite W, E.
  - intros W L. rewrite W.
    destruct frameworks as [| f rest]; [inversion L |]. simpl Nat.eqb.
    apply Nat.ltb_lt in L. now rewrite L.
  - intros W [L1 L2]. rewrite W.
    destruct frameworks as [| f rest]; [inversion L1 |]. simpl Nat.eqb.
    apply Nat.ltb_ge in L2. now rewrite L2.
Qed.

Lemma checkMultiple_validation_witness :
  Compliance.checkMultiple (answers (fulfilled_with Null))
    "We collect user data."
    [gdpr; hipaa; ccpa; sox; pci_dss; iso27001; nist; gdpr; hipaa; ccpa; sox]
  = local_ValidationError "Maximum 10 frameworks allowed per request".
Proof.
  refine (proj1 (proj2 (proj2 (checkMultiple_validation
            (answers (fulfilled_with Null)) "We collect user data."
            [gdpr; hipaa; ccpa; sox; pci_dss; iso27001; nist; gdpr; hipaa;
             ccpa; sox]))) eq_refl _).
  simpl. apply Nat.lt_succ_diag_r.
Defined.

(** X22.  [getRequirements] without a framework is rejected without a
    call of [fetch]; with one, it is the GET of
    /v1/compliance/requirements/<framework>, a path segment made of
    unreserved characters, and calls [fetch] once. *)
Theorem getRequirements_path
  (fetch : string -> RequestInit -> FetchResult) (client : RailScore) :
  Compliance.getRequirements fetch client None
    = local_ValidationError "Framework is required" /\
  forall framework,
    Compliance.getRequirements fetch client (Some framework)
      = request fetch client
          ("/v1/compliance/requirements/" ++ framework_name framework) GET /\
    all_chars is_unreserved (framework_name framework) = true /\
    exists call,
      calls (Compliance.getRequirements fetch client (Some framework))
        = [call] /\
      url call = baseUrl client ++ "/v1/compliance/requirements/"
                   ++ framework_name framework /\
      method (init call) = Some "GET" /\
      body (init call) = None.
Proof.
  split; [reflexivity |]. intros framework.
  split; [reflexivity |]. split; [now destruct framework |].
  eexists. split; [apply request_calls |]. now repeat split.
Qed.

(** ** Across the API classes *)

(** X23.  Every method that takes a content refuses a blank one with
    'Content cannot be empty', before it looks at its other arguments and
    without a request. *)
Theorem blank_content_is_refused (client_request : ClientRequest)
  (content : string) :
  whitespace_only content = true ->
  (forall targetDimensions targetScore,
     Generation.improve client_request content targetDimensions targetScore
     = local_ValidationError "Content cannot be empty") /\
  (forall issues preserveTone,
     Generation.rewrite client_request content issues preserveTone
     = local_ValidationError "Content cannot be empty") /\
  (forall weights,
     Evaluation.basic client_request content weights
     = local_ValidationError "Content cannot be empty") /\
  (forall dimension,
     Evaluation.dimension client_request content dimension
     = local_ValidationError "Content cannot be empty") /\
  (forall dimensions weights,
     Evaluation.custom client_request content dimensions weights
     = local_ValidationError "Content cannot be empty") /\
  (forall framework,
     Compliance.check client_request content framework
     = local_ValidationError "Content cannot be empty") /\
  (forall frameworks,
     Compliance.checkMultiple client_request content frameworks
     = local_ValidationError "Content cannot be empty") /\
  Compliance.scan client_request content
    = local_ValidationError "Content cannot be empty" /\
  (forall framework currentViolations,
     Compliance.getRecommendations client_request content framework
       currentViolations
     = local_ValidationError "Content cannot be empty").
Proof.
  intros W.
  unfold Generation.improve, Generation.rewrite, Evaluation.basic,
    Evaluation.dimension, Evaluation.custom, Compliance.check,
    Compliance.checkMultiple, Compliance.scan, Compliance.getRecommendations.
  rewrite blank_whitespace_only, W. repeat split.
Qed.

Lemma blank_content_is_refused_witness :
  Compliance.scan (answers (fulfilled_with Null)) "   "
  = local_ValidationError "Content cannot be empty".
Proof.
  exact (proj1 (proj2 (proj2 (proj2 (proj2 (proj2 (proj2 (proj2
           (blank_content_is_refused (answers (fulfilled_with Null)) "   "
              eq_refl))))))))).
Defined.

(** X24.  With a content that is not blank, a method that selects by a
    dimension or a framework refuses a call that gives none: [dimension]
    without a dimension, [custom] with an empty list of dimensions, [check]
    and [getRecommendations] without a framework. *)
Theorem selector_is_required (client_request : ClientRequest)
  (content : string) :
  whitespace_only content = false ->
  Evaluation.dimension client_request content None
    = local_ValidationError "Dimension is required" /\
  (forall weights,
     Evaluation.custom client_request content [] weights
     = local_ValidationError "At least one dimension is required") /\
  Compliance.check client_request content None
    = local_ValidationError "Framework is required" /\
  (forall currentViolations,
     Compliance.getRecommendations client_request content None
       currentViolations
     = local_ValidationError "Framework is required").
Proof.
  intros W.
  unfold Evaluation.dimension, Evaluation.custom, Compliance.check,
    Compliance.getRecommendations.
  rewrite blank_whitespace_only, !guard_bind, W. repeat split.
Qed.

Lemma selector_is_required_witness :
  Compliance.check (answers (fulfilled_with Null)) "We collect user data."
    None
  = local_ValidationError "Framework is required".
Proof.
  exact (proj1 (proj2 (proj2 (selector_is_required
           (answers (fulfilled_with Null)) "We collect user data."
           eq_refl)))).
Defined.

(** X25.  With arguments that pass the checks, [basic], [custom], [check],
    [scan] and [getRecommendations] are the request of the client and
    nothing more: its answer and its errors are theirs, unchanged. *)
Theorem checked_methods_are_the_request (client_request : ClientRequest)
  (content : string) :
  whitespace_only content = false ->
  (forall weights,
     Evaluation.basic client_request content weights
     = client_request "/v1/evaluation/basic"
         (POST (BasicBody content weights))) /\
  (forall dimensions weights,
     dimensions <> [] ->
     Evaluation.custom client_request content dimensions weights
     = client_request "/v1/evaluation/custom"
         (POST (CustomBody content dimensions weights))) /\
  (forall framework,
     Compliance.check client_request content (Some framework)
     = client_request "/v1/compliance/check"
         (POST (CheckBody content framework))) /\
  Compliance.scan client_request content
    = client_request "/v1/compliance/scan" (POST (ScanBody content)) /\
  (forall framework currentViolations,
     Compliance.getRecommendations client_request content (Some framework)
       currentViolations
     = client_request "/v1/compliance/recommendations"
         (POST (RecommendationsBody content framework currentViolations))).
Proof.
  intros W.
  unfold Evaluation.basic, Evaluation.custom, Compliance.check,
    Compliance.scan, Compliance.getRecommendations.
  rewrite blank_whitespace_only, W.
  split; [| split; [| split; [| split]]]; intros;
    rewrite ?guard_bind, ?bind_ret; try reflexivity.
  match goal with
  | N : ?l <> [] |- _ => destruct l; [congruence | reflexivity]
  end.
Qed.

Lemma checked_methods_are_the_request_witness :
  Compliance.scan (answers (fulfilled_with Null)) "We collect user data."
  = answers (fulfilled_with Null) "/v1/compliance/scan"
      (POST (ScanBody "We collect user data.")).
Proof.
  exact (proj1 (proj2 (proj2 (proj2 (checked_methods_are_the_request
           (answers (fulfilled_with Null)) "We collect user data."
           eq_refl))))).
Defined.

(** X26.  [getCredits], [healthCheck] and [listFrameworks] check nothing:
    each calls [fetch] once, with the method GET, no body, the three
    headers of the client (the bearer token among them) and the abort
    signal of its timeout. *)
Theorem plain_GET_methods
  (fetch : string -> RequestInit -> FetchResult) (this : RailScore) :
  let GET_of path :=
    [mkFetchCall (baseUrl this ++ path)
       {| method := Some "GET"; body := None;
          headers := default_headers this;
          signal := Some (timeout this) |}] in
  calls (getCredits fetch this) = GET_of "/v1/credits" /\
  calls (healthCheck fetch this) = GET_of "/health" /\
  calls (Compliance.listFrameworks fetch this)
    = GET_of "/v1/compliance/frameworks".
Proof.
  unfold getCredits, healthCheck, Compliance.listFrameworks.
  rewrite !request_calls. repeat split.
Qed.
